(** * timeclock.py: the session tracking engine

    A shallow embedding of [src/timeclock.py]: the [Session] dataclass, the
    JSON backed storage ([load_sessions], [save_sessions]), the running
    session lookup, the calls that change the session list ([toggle],
    [delete_selected], [quit_app]), [refresh] and the time arithmetic of
    [compute_totals], followed by the properties of the specification.

    Conventions.
    - Python values that come out of [json.loads] are values of [json].
    - A [datetime] keeps the fields of Python's class, with the date held as
      its proleptic Gregorian ordinal ([toordinal()]); a [timedelta] is its
      total number of microseconds.
    - The text conversions of [datetime] and [int(td.total_seconds())],
      which goes through a float, are taken from the library as they are
      (class [PyDatetime]).
    - Effects are threaded through a state and exception monad whose state
      survives an exception, as a mutated Python object does. *)

From Stdlib Require Import ZArith List String Ascii Bool Lia.
From Stdlib Require Import Sorting.Sorted Sorting.Permutation.
From Stdlib Require Import Floats.SpecFloat DecimalString DecimalN.
From stdpp Require Import base option list strings.

Local Open Scope string_scope.
Local Open Scope Z_scope.
Set Warnings "-register-all".

(** ** Python values and exceptions *)

(** What [json.loads] produces. A [JObject] is a Python [dict]: its keys are
    pairwise distinct and kept in insertion order. A Python [str] is the
    [string] of the bytes of its UTF-8 encoding. *)
Inductive json : Type :=
| JNull
| JBool (b : bool)
| JInt (n : Z)
| JFloat (f : spec_float)
| JString (s : string)
| JArray (items : list json)
| JObject (members : list (string * json)).

Inductive exn : Type :=
| TypeError
| ValueError
| AttributeError
| IndexError
| OverflowError
| OSError
| UnicodeDecodeError
| JSONDecodeError.

Inductive result (A : Type) : Type :=
| Ok (a : A)
| Raise (e : exn).
Arguments Ok {A} a.
Arguments Raise {A} e.

Definition is_ok {A} (r : result A) : bool :=
  match r with Ok _ => true | Raise _ => false end.

(** [bool(v)]: Python truthiness. *)
Definition truthy (v : json) : bool :=
  match v with
  | JNull => false
  | JBool b => b
  | JInt n => negb (n =? 0)
  | JFloat (S754_zero _) => false
  | JFloat _ => true
  | JString s => negb (String.eqb s EmptyString)
  | JArray items => match items with [] => false | _ => true end
  | JObject members => match members with [] => false | _ => true end
  end.

(** [d.get(key)] on a dict. *)
Fixpoint dict_get (key : string) (members : list (string * json)) : option json :=
  match members with
  | [] => None
  | (k, v) :: rest => if String.eqb k key then Some v else dict_get key rest
  end.

(** ** The state and exception monad *)

Definition M (S A : Type) : Type := S -> result A * S.

Definition ret {S A} (a : A) : M S A := fun s => (Ok a, s).

Definition raise {S A} (e : exn) : M S A := fun s => (Raise e, s).

Definition bind {S A B} (m : M S A) (k : A -> M S B) : M S B :=
  fun s => match m s with
           | (Ok a, s') => k a s'
           | (Raise e, s') => (Raise e, s')
           end.

Definition gets {S A} (f : S -> A) : M S A := fun s => (Ok (f s), s).

Definition modify {S} (f : S -> S) : M S unit := fun s => (Ok tt, f s).

Definition lift_result {S A} (r : result A) : M S A := fun s => (r, s).

Notation "'let!' x ':=' m 'in' k" := (bind m (fun x => k))
  (at level 10, x pattern, m at level 100, k at level 200).
Notation "m1 '>>' m2" := (bind m1 (fun _ => m2))
  (at level 100, m2 at level 200, right associativity).

(** A computation leaves the observation [f] of the state alone. *)
Definition preserves {S A X} (f : S -> X) (m : M S A) : Prop :=
  forall s, f (snd (m s)) = f s.

(** [for x in xs: acc = body(acc, x)], left to right, stopping at the first
    exception. *)
Fixpoint foldM {S A B} (body : A -> B -> M S A) (acc : A) (xs : list B) : M S A :=
  match xs with
  | [] => ret acc
  | x :: rest => let! acc' := body acc x in foldM body acc' rest
  end.

(** [[f(x) for x in xs]]. *)
Fixpoint mapM {S A B} (f : A -> M S B) (xs : list A) : M S (list B) :=
  match xs with
  | [] => ret []
  | x :: rest => let! y := f x in let! ys := mapM f rest in ret (y :: ys)
  end.

(** ** datetime *)

Record datetime : Type := mk_datetime {
  toordinal : Z;
  hour : Z;
  minute : Z;
  second : Z;
  microsecond : Z;
  utcoffset : option Z   (* [None]: naive; [Some o]: aware, o microseconds *)
}.

Definition US_PER_SECOND : Z := 1000000.
Definition US_PER_DAY : Z := 86400 * US_PER_SECOND.
Definition MAXORDINAL : Z := 3652059.

(** [timedelta(days=d)]. *)
Definition timedelta_days (d : Z) : Z := d * US_PER_DAY.

(** The wall clock reading of [d] as a timedelta since ordinal 0. *)
Definition wall (d : datetime) : Z :=
  (((toordinal d * 24 + hour d) * 60 + minute d) * 60 + second d) * US_PER_SECOND
  + microsecond d.

Definition of_wall (w : Z) (tz : option Z) : datetime :=
  let tod := w mod US_PER_DAY in
  {| toordinal := w / US_PER_DAY;
     hour := tod / (3600 * US_PER_SECOND);
     minute := (tod / (60 * US_PER_SECOND)) mod 60;
     second := (tod / US_PER_SECOND) mod 60;
     microsecond := tod mod US_PER_SECOND;
     utcoffset := tz |}.

(** [dt.replace(hour=0, minute=0, second=0, microsecond=0)]. *)
Definition replace_midnight (d : datetime) : datetime :=
  {| toordinal := toordinal d; hour := 0; minute := 0; second := 0;
     microsecond := 0; utcoffset := utcoffset d |}.

(** The instant of an aware datetime on the UTC time line. *)
Definition utc (d : datetime) (off : Z) : Z := wall d - off.

(** [a - b]: naive minus naive compares wall clocks, aware minus aware
    compares instants, a mix raises. *)
Definition dt_sub (a b : datetime) : result Z :=
  match utcoffset a, utcoffset b with
  | None, None => Ok (wall a - wall b)
  | Some oa, Some ob => Ok (utc a oa - utc b ob)
  | _, _ => Raise TypeError
  end.

(** [a > b] and [a < b]. *)
Definition dt_gt (a b : datetime) : result bool :=
  match dt_sub a b with
  | Ok d => Ok (0 <? d)
  | Raise e => Raise e
  end.

Definition dt_lt (a b : datetime) : result bool := dt_gt b a.

(** [max(a, b)] keeps [a] unless [b > a]; [min(a, b)] keeps [a] unless
    [b < a]. *)
Definition dt_max (a b : datetime) : result datetime :=
  match dt_gt b a with
  | Ok g => Ok (if g then b else a)
  | Raise e => Raise e
  end.

Definition dt_min (a b : datetime) : result datetime :=
  match dt_lt b a with
  | Ok l => Ok (if l then b else a)
  | Raise e => Raise e
  end.

(** [d + td]: wall clock arithmetic that keeps the tzinfo; the result must
    stay within [date.min .. date.max]. *)
Definition dt_add (d : datetime) (td : Z) : result datetime :=
  let r := of_wall (wall d + td) (utcoffset d) in
  if (0 <? toordinal r) && (toordinal r <=? MAXORDINAL) then Ok r
  else Raise OverflowError.

(** What the engine takes from the [datetime] library besides the
    arithmetic above: the conversions to and from text, [astimezone()],
    which depends on the system time zone, and [int(td.total_seconds())].
    The latter goes through a float: it is the quotient of the microseconds
    by 10^6, correctly rounded to a double and then truncated toward zero.
    It grows with [td], and for less than 2^34 seconds (some 544 years)
    the rounding cannot reach the next integer, so that it is the truncated
    quotient itself. *)
Class PyDatetime : Type := {
  fromisoformat : string -> option datetime;   (* [None]: ValueError *)
  isoformat_seconds : datetime -> string;      (* [isoformat(timespec="seconds")] *)
  astimezone : datetime -> datetime;
  int_total_seconds : Z -> Z;
  total_seconds_mono :
    forall a b, a <= b -> int_total_seconds a <= int_total_seconds b;
  total_seconds_exact :
    forall td, Z.abs td < 2 ^ 34 * US_PER_SECOND ->
               int_total_seconds td = Z.quot td US_PER_SECOND
}.

(** ** The outside world: clock and file system *)

(** One reading of the system clock: the local wall clock time, in
    microseconds since ordinal 0, and the offset of the local zone in
    force at that moment. *)
Record reading : Type := mk_reading {
  local_wall : Z;
  local_offset : Z
}.

(** What a file holds: the text of a JSON document, identified with the
    value [json.loads] gives for it, or text that is not JSON, or bytes
    that are not the UTF-8 encoding of any text. [json.dumps] writes ASCII
    only, and a proper prefix of [json.dumps] of a dict is never a JSON
    document, so an interrupted write leaves [Garbled]; [Undecodable] can
    only come from outside the program. *)
Inductive content : Type :=
| Doc (j : json)
| Garbled
| Undecodable.

Inductive path : Type :=
| DATA_FILE   (* ~/.timeclock/sessions.json *)
| TMP_FILE.   (* DATA_FILE.with_suffix(".tmp") *)

(** The outcome the environment has in store for an I/O call. *)
Inductive fault : Type :=
| NoFault
| FailEarly   (* the call fails before it changes anything *)
| FailMidway. (* a write fails after the target was truncated *)

Inductive fs_op : Type :=
| OpMkdir
| OpWrite (p : path) (c : content)
| OpReplace (src dst : path).

Record World : Type := mk_World {
  app_dir : bool;                 (* does APP_DIR exist *)
  data_file : option content;
  tmp_file : option content;
  clock : nat -> reading;         (* successive readings of the clock *)
  ticks : nat;                    (* readings taken so far *)
  faults : list fault;            (* outcomes of the I/O calls to come *)
  oplog : list fs_op              (* file system changes made, latest first *)
}.

Definition file (p : path) (w : World) : option content :=
  match p with DATA_FILE => data_file w | TMP_FILE => tmp_file w end.

Definition set_file (p : path) (c : option content) (w : World) : World :=
  match p with
  | DATA_FILE => mk_World (app_dir w) c (tmp_file w) (clock w) (ticks w) (faults w) (oplog w)
  | TMP_FILE => mk_World (app_dir w) (data_file w) c (clock w) (ticks w) (faults w) (oplog w)
  end.

Definition set_app_dir (b : bool) (w : World) : World :=
  mk_World b (data_file w) (tmp_file w) (clock w) (ticks w) (faults w) (oplog w).

Definition set_ticks (n : nat) (w : World) : World :=
  mk_World (app_dir w) (data_file w) (tmp_file w) (clock w) n (faults w) (oplog w).

Definition set_faults (fs : list fault) (w : World) : World :=
  mk_World (app_dir w) (data_file w) (tmp_file w) (clock w) (ticks w) fs (oplog w).

Definition log_op (o : fs_op) (w : World) : World :=
  mk_World (app_dir w) (data_file w) (tmp_file w) (clock w) (ticks w) (faults w) (o :: oplog w).

(** Every I/O call takes the next outcome; when none is left the call
    succeeds. *)
Definition next_fault : M World fault :=
  fun w => match faults w with
           | [] => (Ok NoFault, w)
           | f :: rest => (Ok f, set_faults rest w)
           end.

(** The world once the next outcome has been taken. *)
Definition popped (w : World) : World := set_faults (tl (faults w)) w.

(** No I/O call to come is going to fail. *)
Definition quiet (w : World) : Prop := Forall (fun f => f = NoFault) (faults w).

(** The file system side of the world, with the outcomes still to come. *)
Definition disk (w : World) : bool * option content * option content * list fault * list fs_op :=
  (app_dir w, data_file w, tmp_file w, faults w, oplog w).

(** The aware datetime of a clock reading. *)
Definition datetime_of (r : reading) : datetime :=
  of_wall (local_wall r) (Some (local_offset r)).

(** [datetime.now().astimezone()]: the next reading of the clock, always
    aware. *)
Definition now_local : M World datetime :=
  fun w => (Ok (datetime_of (clock w (ticks w))),
            set_ticks (Datatypes.S (ticks w)) w).

Definition start_of_today_local : M World datetime :=
  let! n := now_local in
  ret (replace_midnight n).

(** ** Session *)

(** The dataclass. Its fields are annotated [str], [Optional[str]] and
    [str], but nothing checks that, and [load_sessions] stores whatever the
    file holds. *)
Record Session : Type := mk_Session {
  start_iso : json;
  end_iso : json;
  note : json
}.

Definition set_end_iso (v : json) (s : Session) : Session :=
  {| start_iso := start_iso s; end_iso := v; note := note s |}.

Section Engine.
Context `{PyDatetime}.

Definition dt_to_iso (dt : datetime) : string :=
  isoformat_seconds (astimezone dt).

Definition iso_to_dt (s : json) : result datetime :=
  match s with
  | JString s => match fromisoformat s with
                 | Some d => Ok d
                 | None => Raise ValueError
                 end
  | _ => Raise TypeError
  end.

Definition start_dt (s : Session) : result datetime := iso_to_dt (start_iso s).

Definition end_dt (s : Session) : result (option datetime) :=
  if truthy (end_iso s) then
    match iso_to_dt (end_iso s) with
    | Ok d => Ok (Some d)
    | Raise e => Raise e
    end
  else Ok None.

(** [self.end_iso is None]. *)
Definition is_running (s : Session) : bool :=
  match end_iso s with JNull => true | _ => false end.

(** [self.end_dt() or now_local()]: the clock is read only when [end_dt()]
    is [None]. *)
Definition end_or_now (s : Session) : M World datetime :=
  let! e := lift_result (end_dt s) in
  match e with
  | Some d => ret d
  | None => now_local
  end.

Definition duration_seconds (s : Session) : M World Z :=
  let! start := lift_result (start_dt s) in
  let! end_ := end_or_now s in
  let! td := lift_result (dt_sub end_ start) in
  ret (int_total_seconds td).

(** The body of the loop of [compute_totals]; the accumulator is
    [(today_sec, all_sec)]. *)
Definition totals_step (today_start tomorrow_start : datetime)
    (acc : Z * Z) (s : Session) : M World (Z * Z) :=
  let '(today_sec, all_sec) := acc in
  let! start := lift_result (start_dt s) in
  let! end_ := end_or_now s in
  let! td := lift_result (dt_sub end_ start) in
  let dur := int_total_seconds td in
  let all_sec := if 0 <? dur then all_sec + dur else all_sec in
  let! overlap_start := lift_result (dt_max start today_start) in
  let! overlap_end := lift_result (dt_min end_ tomorrow_start) in
  let! otd := lift_result (dt_sub overlap_end overlap_start) in
  let overlap := int_total_seconds otd in
  let today_sec := if 0 <? overlap then today_sec + overlap else today_sec in
  ret (today_sec, all_sec).

(** [compute_totals]; [sessions] is [self.sessions], the only attribute the
    method reads. It returns [(today_sec, all_sec)]. *)
Definition compute_totals (sessions : list Session) : M World (Z * Z) :=
  let! today_start := start_of_today_local in
  let! tomorrow_start := lift_result (dt_add today_start (timedelta_days 1)) in
  foldM (totals_step today_start tomorrow_start) (0, 0) sessions.

(** ** Storage *)

(** [APP_DIR.mkdir(parents=True, exist_ok=True)]. *)
Definition mkdir_app_dir : M World unit :=
  let! f := next_fault in
  match f with
  | NoFault =>
      fun w => if app_dir w then (Ok tt, w)
               else (Ok tt, log_op OpMkdir (set_app_dir true w))
  | _ => raise OSError
  end.

(** [p.exists()]. *)
Definition exists_ (p : path) : M World bool :=
  gets (fun w => match file p w with Some _ => true | None => false end).

(** [p.write_text(json.dumps(j, indent=2), encoding="utf-8")]: the file is
    opened for writing, which truncates it, and then written. *)
Definition write_text (p : path) (j : json) : M World unit :=
  let! f := next_fault in
  fun w =>
    if negb (app_dir w) then (Raise OSError, w)
    else match f with
         | NoFault => (Ok tt, log_op (OpWrite p (Doc j)) (set_file p (Some (Doc j)) w))
         | FailEarly => (Raise OSError, w)
         | FailMidway =>
             (Raise OSError, log_op (OpWrite p Garbled) (set_file p (Some Garbled) w))
         end.

(** [p.read_text(encoding="utf-8")]: the file is opened and read, which
    can fail, and its bytes are decoded, which fails on bytes that are not
    UTF-8. *)
Definition read_text (p : path) : M World content :=
  let! f := next_fault in
  fun w =>
    match f, file p w with
    | NoFault, Some Undecodable => (Raise UnicodeDecodeError, w)
    | NoFault, Some c => (Ok c, w)
    | _, _ => (Raise OSError, w)
    end.

(** [json.loads] of the text that [read_text] returned; [read_text] never
    returns [Undecodable]. *)
Definition json_loads (c : content) : result json :=
  match c with
  | Doc j => Ok j
  | Garbled => Raise JSONDecodeError
  | Undecodable => Raise UnicodeDecodeError
  end.

(** [os.replace(src, dst)]: one rename, which either happens or does not. *)
Definition os_replace (src dst : path) : M World unit :=
  let! f := next_fault in
  fun w =>
    match f, file src w with
    | NoFault, Some c =>
        (Ok tt, log_op (OpReplace src dst) (set_file dst (Some c) (set_file src None w)))
    | _, _ => (Raise OSError, w)
    end.

Definition empty_store : json := JObject [("sessions", JArray [])].

Definition ensure_storage : M World unit :=
  mkdir_app_dir >>
  let! there := exists_ DATA_FILE in
  if negb there then write_text DATA_FILE empty_store else ret tt.

(** [Session] called with the keyword arguments of the mapping [s], whose
    keys must be exactly the three field names. *)
Definition Session_of_kwargs (s : json) : result Session :=
  match s with
  | JObject members =>
      if forallb (fun kv => existsb (String.eqb (fst kv)) ["start_iso"; "end_iso"; "note"])
                 members
      then match dict_get "start_iso" members, dict_get "end_iso" members,
                 dict_get "note" members with
           | Some a, Some b, Some c => Ok (mk_Session a b c)
           | _, _, _ => Raise TypeError
           end
      else Raise TypeError
  | _ => Raise TypeError
  end.

(** [asdict(s)]. *)
Definition asdict (s : Session) : json :=
  JObject [("start_iso", start_iso s); ("end_iso", end_iso s); ("note", note s)].

(** [iter(v)]: what a [for] clause goes through. A dict yields its keys, a
    string its characters. *)
Definition py_iter (v : json) : result (list json) :=
  match v with
  | JArray items => Ok items
  | JObject members => Ok (map (fun kv => JString (fst kv)) members)
  | JString s => Ok (map (fun c => JString (String c EmptyString)) (list_ascii_of_string s))
  | _ => Raise TypeError
  end.

(** [raw.get("sessions", [])]; only a dict has [get]. *)
Definition raw_get_sessions (raw : json) : result json :=
  match raw with
  | JObject members =>
      Ok (match dict_get "sessions" members with Some v => v | None => JArray [] end)
  | _ => Raise AttributeError
  end.

Definition load_sessions : M World (list Session) :=
  ensure_storage >>
  let! text := read_text DATA_FILE in
  let! raw := lift_result (json_loads text) in
  let! v := lift_result (raw_get_sessions raw) in
  let! items := lift_result (py_iter v) in
  mapM (fun s => lift_result (Session_of_kwargs s)) items.

Definition store_of (sessions : list Session) : json :=
  JObject [("sessions", JArray (map asdict sessions))].

Definition save_sessions (sessions : list Session) : M World unit :=
  ensure_storage >>
  write_text TMP_FILE (store_of sessions) >>
  os_replace TMP_FILE DATA_FILE.

(** ** The application object *)

(** One row of the table: [values=(start, end, dur, s.note)] under
    [iid=f"row:{i}"]. The two time stamps are kept before [strftime]. *)
Record row : Type := mk_row {
  iid : nat;
  row_start : datetime;
  row_end : option datetime;
  row_dur : string;
  row_note : json
}.

(** The attributes of [TimeClockApp] that the engine reads or writes: the
    session list, the note entry and the text shown by the widgets. *)
Record TimeClockApp : Type := mk_App {
  sessions : list Session;
  note_var : string;
  toggle_btn : string;
  status_var : option string;   (* [None]: "Not running"; [Some d]: running for d *)
  today_total_var : string;
  all_total_var : string;
  tree : list row
}.

Definition set_sessions (ss : list Session) (a : TimeClockApp) : TimeClockApp :=
  mk_App ss (note_var a) (toggle_btn a) (status_var a) (today_total_var a)
         (all_total_var a) (tree a).

Definition set_note_var (n : string) (a : TimeClockApp) : TimeClockApp :=
  mk_App (sessions a) n (toggle_btn a) (status_var a) (today_total_var a)
         (all_total_var a) (tree a).

Definition set_toggle_btn (t : string) (a : TimeClockApp) : TimeClockApp :=
  mk_App (sessions a) (note_var a) t (status_var a) (today_total_var a)
         (all_total_var a) (tree a).

Definition set_status_var (t : option string) (a : TimeClockApp) : TimeClockApp :=
  mk_App (sessions a) (note_var a) (toggle_btn a) t (today_total_var a)
         (all_total_var a) (tree a).

Definition set_today_total_var (t : string) (a : TimeClockApp) : TimeClockApp :=
  mk_App (sessions a) (note_var a) (toggle_btn a) (status_var a) t
         (all_total_var a) (tree a).

Definition set_all_total_var (t : string) (a : TimeClockApp) : TimeClockApp :=
  mk_App (sessions a) (note_var a) (toggle_btn a) (status_var a)
         (today_total_var a) t (tree a).

Definition set_tree (t : list row) (a : TimeClockApp) : TimeClockApp :=
  mk_App (sessions a) (note_var a) (toggle_btn a) (status_var a)
         (today_total_var a) (all_total_var a) t.

(** The running program: the application object and the world around it. *)
Record Sys : Type := mk_Sys {
  self : TimeClockApp;
  world : World
}.

Definition on_self (f : TimeClockApp -> TimeClockApp) : M Sys unit :=
  modify (fun s => mk_Sys (f (self s)) (world s)).

Definition in_world {A} (m : M World A) : M Sys A :=
  fun s => let (r, w') := m (world s) in (r, mk_Sys (self s) w').

(** The loop [for i in range(len(self.sessions) - 1, -1, -1)], entered with
    [n] indices [n-1 .. 0] still to visit. *)
Fixpoint running_from (ss : list Session) (n : nat) : option nat :=
  match n with
  | O => None
  | Datatypes.S i =>
      match ss !! i with
      | Some s => if is_running s then Some i else running_from ss i
      | None => running_from ss i
      end
  end.

Definition running_session_index (ss : list Session) : option nat :=
  running_from ss (length ss).

(** [str.strip()]. It removes from both ends the characters for which
    [str.isspace] holds: U+0009 to U+000D, U+001C to U+0020, U+0085,
    U+00A0, U+1680, U+2000 to U+200A, U+2028, U+2029, U+202F, U+205F and
    U+3000. In UTF-8 these take one, two or three bytes. *)
Definition is_space (c : ascii) : bool :=
  let n := nat_of_ascii c in
  ((9 <=? n) && (n <=? 13) || (28 <=? n) && (n <=? 32))%nat.

(** U+0085 and U+00A0. *)
Definition is_space2 (c1 c2 : ascii) : bool :=
  let a := nat_of_ascii c1 in
  let b := nat_of_ascii c2 in
  ((a =? 194) && ((b =? 133) || (b =? 160)))%nat.

(** U+1680; U+2000 to U+200A, U+2028, U+2029, U+202F; U+205F; U+3000. *)
Definition is_space3 (c1 c2 c3 : ascii) : bool :=
  let a := nat_of_ascii c1 in
  let b := nat_of_ascii c2 in
  let c := nat_of_ascii c3 in
  ((a =? 225) && (b =? 154) && (c =? 128)
   || (a =? 226) && (b =? 128)
      && ((128 <=? c) && (c <=? 138) || (c =? 168) || (c =? 169) || (c =? 175))
   || (a =? 226) && (b =? 129) && (c =? 159)
   || (a =? 227) && (b =? 128) && (c =? 128))%nat.

Fixpoint lstrip (s : string) : string :=
  match s with
  | EmptyString => EmptyString
  | String c1 rest1 =>
      if is_space c1 then lstrip rest1
      else
        match rest1 with
        | EmptyString => s
        | String c2 rest2 =>
            if is_space2 c1 c2 then lstrip rest2
            else
              match rest2 with
              | EmptyString => s
              | String c3 rest3 => if is_space3 c1 c2 c3 then lstrip rest3 else s
              end
        end
  end.

(** The text is cut where nothing but white space follows; no encoding of
    a white space character begins inside another character. *)
Fixpoint rstrip (s : string) : string :=
  match s with
  | EmptyString => EmptyString
  | String c rest =>
      match lstrip s with
      | EmptyString => EmptyString
      | _ => String c (rstrip rest)
      end
  end.

Definition strip (s : string) : string := rstrip (lstrip s).

Definition str_of_Z (n : Z) : string := NilZero.string_of_uint (N.to_uint (Z.to_N n)).

(** [f"{n:02d}"] for [n >= 0]. *)
Definition pad2 (n : Z) : string :=
  if n <? 10 then String "0" (str_of_Z n) else str_of_Z n.

Definition fmt_duration (seconds : Z) : string :=
  let seconds := if seconds <? 0 then 0 else seconds in
  let h := seconds / 3600 in
  let m := (seconds mod 3600) / 60 in
  let s := seconds mod 60 in
  (str_of_Z h ++ ":" ++ pad2 m ++ ":" ++ pad2 s)%string.

Definition refresh_row (rows : list row) (entry : nat * Session) : M World (list row) :=
  let '(i, s) := entry in
  let! start := lift_result (start_dt s) in
  let! e := lift_result (end_dt s) in
  let! dur := duration_seconds s in
  ret (rows ++ [mk_row i start e (fmt_duration dur) (note s)])%list.

Definition refresh : M Sys unit :=
  let! ss := gets (fun s => sessions (self s)) in
  match running_session_index ss with
  | None => on_self (set_toggle_btn "Start") >> on_self (set_status_var None)
  | Some idx =>
      on_self (set_toggle_btn "Stop") >>
      match ss !! idx with
      | Some s =>
          let! d := in_world (duration_seconds s) in
          on_self (set_status_var (Some (fmt_duration d)))
      | None => raise IndexError
      end
  end >>
  let! totals := in_world (compute_totals ss) in
  on_self (set_today_total_var (fmt_duration (fst totals))) >>
  on_self (set_all_total_var (fmt_duration (snd totals))) >>
  on_self (set_tree []) >>
  foldM (fun (_ : unit) entry =>
           let! rows := gets (fun s => tree (self s)) in
           let! rows' := in_world (refresh_row rows entry) in
           on_self (set_tree rows'))
        tt (imap (fun i s => (i, s)) ss).

(** [toggle]. [update_tray_menu] swallows its own exceptions and touches
    nothing modelled here. *)
Definition toggle : M Sys unit :=
  let! ss := gets (fun s => sessions (self s)) in
  match running_session_index ss with
  | None =>
      let! typed := gets (fun s => note_var (self s)) in
      let note := strip typed in
      let! n := in_world now_local in
      on_self (fun a => set_sessions
                 (sessions a ++ [mk_Session (JString (dt_to_iso n)) JNull (JString note)])%list a) >>
      on_self (set_note_var EmptyString)
  | Some idx =>
      let! n := in_world now_local in
      on_self (fun a => set_sessions
                 (alter (set_end_iso (JString (dt_to_iso n))) idx (sessions a)) a)
  end >>
  let! ss' := gets (fun s => sessions (self s)) in
  in_world (save_sessions ss') >>
  refresh.

(** [sorted(indices, reverse=True)]. *)
Fixpoint insert_desc (i : nat) (l : list nat) : list nat :=
  match l with
  | [] => [i]
  | j :: rest => if (j <=? i)%nat then i :: l else j :: insert_desc i rest
  end.

Definition sorted_reverse (l : list nat) : list nat := foldr insert_desc [] l.

(** The loop of [delete_selected]: [del self.sessions[i]] for the indices in
    range. *)
Definition delete_indices (indices : list nat) (ss : list Session) : list Session :=
  fold_left (fun acc i => if (i <? length acc)%nat then delete i acc else acc) indices ss.

(** [delete_selected]; [sel] holds the numbers of the selected rows
    ([int(item.split(":")[1])] of the iids [refresh] made) and [confirmed]
    is the answer to the dialog. *)
Definition delete_selected (sel : list nat) (confirmed : bool) : M Sys unit :=
  match sel with
  | [] => ret tt
  | _ =>
      if negb confirmed then ret tt
      else
        on_self (fun a => set_sessions (delete_indices (sorted_reverse sel) (sessions a)) a) >>
        let! ss' := gets (fun s => sessions (self s)) in
        in_world (save_sessions ss') >>
        refresh
  end.

(** [tick]; scheduling the next tick is the main loop's business. *)
Definition tick : M Sys unit :=
  let! ss := gets (fun s => sessions (self s)) in
  match running_session_index ss with
  | Some _ => refresh
  | None => ret tt
  end.

(** [try: m / except Exception: pass]. *)
Definition swallow {S} (m : M S unit) : M S unit :=
  fun s => (Ok tt, snd (m s)).

(** [quit_app], up to the point where the window is destroyed. *)
Definition quit_app : M Sys unit :=
  let! ss := gets (fun s => sessions (self s)) in
  match running_session_index ss with
  | Some idx =>
      let! n := in_world now_local in
      on_self (fun a => set_sessions
                 (alter (set_end_iso (JString (dt_to_iso n))) idx (sessions a)) a) >>
      let! ss' := gets (fun s => sessions (self s)) in
      swallow (in_world (save_sessions ss'))
  | None => ret tt
  end.

(** The application object as [__init__] has it before its first
    [refresh]: the loaded sessions, an empty note entry, the button and the
    labels with their initial texts, an empty table. *)
Definition new_app (ss : list Session) : TimeClockApp :=
  mk_App ss EmptyString "Start" None "0:00:00" "0:00:00" [].

(** [__init__]: the sessions are loaded, the widgets are built and
    [refresh] is called. An exception leaves no application object. *)
Definition init : M World TimeClockApp :=
  fun w =>
    match load_sessions w with
    | (Ok ss, w1) =>
        match refresh (mk_Sys (new_app ss) w1) with
        | (Ok _, sys) => (Ok (self sys), world sys)
        | (Raise e, sys) => (Raise e, world sys)
        end
    | (Raise e, w1) => (Raise e, w1)
    end.

(** [TimeClockApp.is_running], which labels the tray item. *)
Definition TimeClockApp_is_running (ss : list Session) : bool :=
  match running_session_index ss with
  | Some _ => true
  | None => false
  end.







End Engine.

(** ** A reference [PyDatetime]

    The calendar arithmetic of the [datetime] module and the text format
    that [isoformat(timespec="seconds")] writes, for a system whose local
    zone has a fixed offset. It is the instance at which the examples are
    evaluated. *)

Module Calendar.

Definition is_leap (year : Z) : bool :=
  (year mod 4 =? 0) && (negb (year mod 100 =? 0) || (year mod 400 =? 0)).

Definition days_before_year (year : Z) : Z :=
  let y := year - 1 in y * 365 + y / 4 - y / 100 + y / 400.

Definition DAYS_IN_MONTH : list Z := [31; 28; 31; 30; 31; 30; 31; 31; 30; 31; 30; 31].

Definition days_in_month (year month : Z) : Z :=
  if (month =? 2) && is_leap year then 29
  else nth (Z.to_nat (month - 1)) DAYS_IN_MONTH 0.

Definition days_before_month (year month : Z) : Z :=
  fold_right Z.add 0 (firstn (Z.to_nat (month - 1)) DAYS_IN_MONTH)
  + (if (2 <? month) && is_leap year then 1 else 0).

Definition ymd2ord (year month day : Z) : Z :=
  days_before_year year + days_before_month year month + day.

Definition ord2ymd (ordinal : Z) : Z * Z * Z :=
  let n := ordinal - 1 in
  let n400 := n / 146097 in
  let n := n mod 146097 in
  let n100 := n / 36524 in
  let n := n mod 36524 in
  let n4 := n / 1461 in
  let n := n mod 1461 in
  let n1 := n / 365 in
  let n := n mod 365 in
  let year := n400 * 400 + 1 + n100 * 100 + n4 * 4 + n1 in
  if (n1 =? 4) || (n100 =? 4) then (year - 1, 12, 31)
  else
    let month := Z.shiftr (n + 50) 5 in
    let preceding := days_before_month year month in
    if n <? preceding
    then (year, month - 1, n - (preceding - days_in_month year (month - 1)) + 1)
    else (year, month, n - preceding + 1).

Definition digit (c : ascii) : option Z :=
  let n := Z.of_nat (nat_of_ascii c) in
  if (48 <=? n) && (n <=? 57) then Some (n - 48) else None.

(** Reads exactly [n] decimal digits. *)
Fixpoint take_digits (n : nat) (s : string) (acc : Z) : option (Z * string) :=
  match n with
  | O => Some (acc, s)
  | Datatypes.S n' =>
      match s with
      | String c rest =>
          match digit c with
          | Some d => take_digits n' rest (acc * 10 + d)
          | None => None
          end
      | EmptyString => None
      end
  end.

Definition expect (c : ascii) (s : string) : option string :=
  match s with
  | String c' rest => if Ascii.eqb c c' then Some rest else None
  | EmptyString => None
  end.

Definition skip_one (s : string) : option string :=
  match s with
  | String _ rest => Some rest
  | EmptyString => None
  end.

(** The optional [.ffffff]. *)
Definition take_fraction (s : string) : option (Z * string) :=
  match s with
  | String "." rest => take_digits 6 rest 0
  | _ => Some (0, s)
  end.

(** The optional [+HH:MM] or [-HH:MM] that ends the text. *)
Definition take_offset (s : string) : option (option Z) :=
  match s with
  | EmptyString => Some None
  | String c rest =>
      sign ← (if Ascii.eqb c "+" then Some 1
              else if Ascii.eqb c "-" then Some (-1) else None);
      '(hh, rest) ← take_digits 2 rest 0;
      rest ← expect ":" rest;
      '(mm, rest) ← take_digits 2 rest 0;
      match rest with
      | EmptyString =>
          if (hh <=? 23) && (mm <=? 59)
          then Some (Some (sign * ((hh * 60 + mm) * 60 * US_PER_SECOND)))
          else None
      | _ => None
      end
  end.

(** [YYYY-MM-DD?HH:MM:SS[.ffffff][+HH:MM]]. *)
Definition parse (s : string) : option datetime :=
  '(y, s) ← take_digits 4 s 0;
  s ← expect "-" s;
  '(m, s) ← take_digits 2 s 0;
  s ← expect "-" s;
  '(d, s) ← take_digits 2 s 0;
  s ← skip_one s;
  '(hh, s) ← take_digits 2 s 0;
  s ← expect ":" s;
  '(mm, s) ← take_digits 2 s 0;
  s ← expect ":" s;
  '(ss, s) ← take_digits 2 s 0;
  '(us, s) ← take_fraction s;
  tz ← take_offset s;
  if (1 <=? y) && (1 <=? m) && (m <=? 12) && (1 <=? d) && (d <=? days_in_month y m)
     && (hh <=? 23) && (mm <=? 59) && (ss <=? 59)
  then Some (mk_datetime (ymd2ord y m d) hh mm ss us tz)
  else None.

Definition pad4 (n : Z) : string :=
  ((if (n <? 1000)%Z then "0" else EmptyString) ++ (if (n <? 100)%Z then "0" else EmptyString)
   ++ (if (n <? 10)%Z then "0" else EmptyString) ++ str_of_Z n)%string.

Definition pad6 (n : Z) : string :=
  ((if (n <? 100000)%Z then "0" else EmptyString) ++ (if (n <? 10000)%Z then "0" else EmptyString)
   ++ pad4 n)%string.

Definition format_offset (off : Z) : string :=
  let sign := if off <? 0 then "-" else "+" in
  let a := Z.abs off in
  let hh := a / (3600 * US_PER_SECOND) in
  let mm := (a / (60 * US_PER_SECOND)) mod 60 in
  let ss := (a / US_PER_SECOND) mod 60 in
  let us := a mod US_PER_SECOND in
  (sign ++ pad2 hh ++ ":" ++ pad2 mm
   ++ (if ((ss =? 0) && (us =? 0))%Z then EmptyString else ":" ++ pad2 ss)
   ++ (if (us =? 0)%Z then EmptyString else "." ++ pad6 us))%string.

Definition format (d : datetime) : string :=
  let '(y, m, dd) := ord2ymd (toordinal d) in
  (pad4 y ++ "-" ++ pad2 m ++ "-" ++ pad2 dd ++ "T"
   ++ pad2 (hour d) ++ ":" ++ pad2 (minute d) ++ ":" ++ pad2 (second d)
   ++ match utcoffset d with Some off => format_offset off | None => EmptyString end)%string.

(** [astimezone()] where the local zone is [zone] microseconds east of UTC
    all year; a naive datetime is taken to be local time. *)
Definition to_zone (zone : Z) (d : datetime) : datetime :=
  match utcoffset d with
  | Some off => of_wall (wall d - off + zone) (Some zone)
  | None => of_wall (wall d) (Some zone)
  end.

End Calendar.

Definition FixedZone (zone : Z) : PyDatetime :=
  {| fromisoformat := Calendar.parse;
     isoformat_seconds := Calendar.format;
     astimezone := Calendar.to_zone zone;
     int_total_seconds := fun td => Z.quot td US_PER_SECOND;
     total_seconds_mono := fun a b Hab =>
       Z.quot_le_mono a b US_PER_SECOND eq_refl Hab;
     total_seconds_exact := fun td _ => eq_refl |}.

(** Eastern Standard Time, five hours west of UTC. *)
Definition EST : Z := - (5 * 3600 * US_PER_SECOND).

(** ** The specification's time arithmetic

    Written after the words of the specification, over sessions whose time
    stamps have been parsed: a pair of the start and the optional end.
    Whole seconds are taken as the code takes them. *)

(** The position of a datetime on the time line, in microseconds. *)
Definition instant (d : datetime) : Z :=
  match utcoffset d with
  | Some off => utc d off
  | None => wall d
  end.

Definition aware (d : datetime) : bool :=
  match utcoffset d with Some _ => true | None => false end.

Definition sum_Z (l : list Z) : Z := fold_right Z.add 0 l.

Module Spec.
Section Spec.
Context `{PyDatetime}.

(** [day_start(instant)]: hour, minute, second and sub-second set to zero,
    same offset. *)
Definition day_start (now : datetime) : datetime := replace_midnight now.

Definition end_or (now : datetime) (end_ : option datetime) : datetime :=
  match end_ with Some e => e | None => now end.

(** [duration(session, now)]: end-or-now minus start, floored at zero. *)
Definition duration (now : datetime) (iv : datetime * option datetime) : Z :=
  Z.max 0 (int_total_seconds (instant (end_or now (snd iv)) - instant (fst iv))).

(** Overlap = max(0, min(end, tomorrow_start) - max(start, today_start)),
    where the window is [day_start(now), day_start(now) + 24h). *)
Definition overlap (now : datetime) (iv : datetime * option datetime) : Z :=
  let today_start := instant (day_start now) in
  let tomorrow_start := today_start + 24 * 3600 * US_PER_SECOND in
  Z.max 0 (int_total_seconds
             (Z.min (instant (end_or now (snd iv))) tomorrow_start
              - Z.max (instant (fst iv)) today_start)).

Definition total_seconds (ivs : list (datetime * option datetime)) (now : datetime) : Z :=
  sum_Z (map (duration now) ivs).

Definition today_seconds (ivs : list (datetime * option datetime)) (now : datetime) : Z :=
  sum_Z (map (overlap now) ivs).

End Spec.
End Spec.

(** The date of the reading lies between 0001-01-01 and 9999-12-30, so that
    the next day exists. *)
Definition has_tomorrow (r : reading) : Prop :=
  1 <= local_wall r / US_PER_DAY < MAXORDINAL.

(** ** Vocabulary of the statements *)

Section Vocabulary.
Context `{PyDatetime}.

(** A session whose time stamps parse to the aware pair [iv]. *)
Definition parses_to (s : Session) (iv : datetime * option datetime) : Prop :=
  start_dt s = Ok (fst iv) /\ end_dt s = Ok (snd iv)
  /\ aware (fst iv) = true
  /\ (forall e, snd iv = Some e -> aware e = true).

Definition count_running (ss : list Session) : nat :=
  length (List.filter is_running ss).

(** The program right after the first half of [toggle], before it saves:
    the clock has been read once and the session list changed. *)
Definition mutated (sys : Sys) : Sys :=
  let n := datetime_of (clock (world sys) (ticks (world sys))) in
  let w1 := set_ticks (Datatypes.S (ticks (world sys))) (world sys) in
  match running_session_index (sessions (self sys)) with
  | None =>
      mk_Sys (set_note_var EmptyString
                (set_sessions
                   (sessions (self sys)
                    ++ [mk_Session (JString (dt_to_iso n)) JNull
                          (JString (strip (note_var (self sys))))])%list
                   (self sys))) w1
  | Some idx =>
      mk_Sys (set_sessions
                (alter (set_end_iso (JString (dt_to_iso n))) idx (sessions (self sys)))
                (self sys)) w1
  end.

(** What reaches the engine while the window is open: the button or the
    tray item, typing in the note entry, the delete button, the timer and
    the quit item. *)
Inductive op : Type :=
| Toggle
| TypeNote (text : string)
| DeleteSelected (sel : list nat) (confirmed : bool)
| Tick
| Quit.

Definition run_op (o : op) : M Sys unit :=
  match o with
  | Toggle => toggle
  | TypeNote text => on_self (set_note_var text)
  | DeleteSelected sel confirmed => delete_selected sel confirmed
  | Tick => tick
  | Quit => quit_app
  end.

(** What a call may do to the session list: at most one session is
    running after it, a toggle that starts makes the list one longer, a
    toggle that stops keeps its length, and so does every other call but
    a deletion, which does not make it longer. *)
Definition lawful_step (step : Sys * op * Sys) : Prop :=
  let before := sessions (self (fst (fst step))) in
  let after := sessions (self (snd step)) in
  (count_running after <= 1)%nat
  /\ match snd (fst step) with
     | Toggle =>
         match running_session_index before with
         | None => length after = Datatypes.S (length before)
         | Some _ => length after = length before
         end
     | DeleteSelected _ _ => (length after <= length before)%nat
     | _ => length after = length before
     end.

(** The program is either not running, and only the world is there, or
    running with its application object. *)
Inductive machine : Type :=
| Off (w : World)
| On (sys : Sys).

Inductive event : Type :=
| Launch            (* the program is started *)
| Call (o : op)
| Exit.             (* the process ends *)

(** An exception raised by a call is reported by Tk and the main loop goes
    on, so the next call starts from the state the failed one left. *)
Definition step (e : event) (m : machine) : machine :=
  match e, m with
  | Launch, Off w =>
      match init w with
      | (Ok app, w') => On (mk_Sys app w')
      | (Raise _, w') => Off w'
      end
  | Call o, On sys => On (snd (run_op o sys))
  | Exit, On sys => Off (world sys)
  | _, _ => m
  end.

(** The states the program goes through, the first one left out. *)
Fixpoint history (es : list event) (m : machine) : list machine :=
  match es with
  | [] => []
  | e :: rest => step e m :: history rest (step e m)
  end.

(** What is seen of a state: whether the program runs, and then how many
    sessions there are and how many of them are running. *)
Definition observe (m : machine) : option (nat * nat) :=
  match m with
  | Off _ => None
  | On sys => Some (length (sessions (self sys)), count_running (sessions (self sys)))
  end.

(** At this point at most one session is running, and whatever call comes
    next is lawful. *)
Definition lawful_point (m : machine) : Prop :=
  match m with
  | Off _ => True
  | On sys =>
      (count_running (sessions (self sys)) <= 1)%nat
      /\ forall o, lawful_step (sys, o, snd (run_op o sys))
  end.

(** The data file, when it holds a document, holds a collection with at
    most one running session. *)
Definition lawful_world (w : World) : Prop :=
  match data_file w with
  | Some (Doc j) => exists ss, j = store_of ss /\ (count_running ss <= 1)%nat
  | _ => True
  end.

Definition lawful_machine (m : machine) : Prop :=
  match m with
  | Off w => lawful_world w
  | On sys => (count_running (sessions (self sys)) <= 1)%nat /\ lawful_world (world sys)
  end.

(** The two ways [save_sessions ss] can end in a world [w] whose data file
    holds [c]: it returns after the temporary file was written and renamed
    over the data file, or it raises [OSError] with the data file as it was
    and at most the temporary file written. *)
Definition atomic_outcome (ss : list Session) (w : World) (c : content)
    (r : result unit * World) : Prop :=
  (fst r = Ok tt
   /\ data_file (snd r) = Some (Doc (store_of ss))
   /\ tmp_file (snd r) = None
   /\ oplog (snd r)
      = OpReplace TMP_FILE DATA_FILE :: OpWrite TMP_FILE (Doc (store_of ss)) :: oplog w)
  \/
  (fst r = Raise OSError
   /\ data_file (snd r) = Some c
   /\ (oplog (snd r) = oplog w
       \/ exists t, oplog (snd r) = OpWrite TMP_FILE t :: oplog w)).

(** The sessions that are left when those at the indices [sel] go. *)
Definition unselected (sel : list nat) (ss : list Session) : list Session :=
  map snd (List.filter (fun p : nat * Session => negb (existsb (Nat.eqb (fst p)) sel))
                       (imap (fun i s => (i, s)) ss)).

(** The same, going down the list with the index [k] of its head. *)
Fixpoint unselected_from (k : nat) (sel : list nat) (ss : list Session) : list Session :=
  match ss with
  | [] => []
  | x :: rest =>
      if existsb (Nat.eqb k) sel then unselected_from (Datatypes.S k) sel rest
      else x :: unselected_from (Datatypes.S k) sel rest
  end.

(** Does the call reach [save_sessions]. *)
Definition reaches_save (o : op) (sys : Sys) : bool :=
  match o with
  | Toggle => true
  | DeleteSelected (_ :: _) true => true
  | Quit => TimeClockApp_is_running (sessions (self sys))
  | _ => false
  end.


(** A text without a colon, as the digits of a number are. *)
Fixpoint colon_free (s : string) : bool :=
  match s with
  | EmptyString => true
  | String c rest => negb (Ascii.eqb c ":") && colon_free rest
  end.

(** The stamps of a session as a pair, when both parse. *)
Definition interval_of (s : Session) : datetime * option datetime :=
  match start_dt s, end_dt s with
  | Ok a, Ok b => (a, b)
  | _, _ => (mk_datetime 0 0 0 0 0 None, None)
  end.

End Vocabulary.

(** ** Example inputs *)

(** Noon of 2024-01-02 in New York. *)
Definition noon : reading :=
  mk_reading (wall (mk_datetime (Calendar.ymd2ord 2024 1 2) 12 0 0 0 None)) EST.

(** A world with an empty store whose clock stands at [r] and whose I/O
    calls meet the outcomes [fs]. *)
Definition world_at (r : reading) (fs : list fault) : World :=
  mk_World true (Some (Doc empty_store)) None (fun _ => r) 0 fs [].

Definition app_with (ss : list Session) : TimeClockApp :=
  mk_App ss EmptyString "Start" None "0:00:00" "0:00:00" [].

(** 23:30 to 00:30 across the midnight before [noon]. *)
Definition midnight_session : Session :=
  mk_Session (JString "2024-01-01T23:30:00-05:00")
             (JString "2024-01-02T00:30:00-05:00") (JString EmptyString).

Definition midnight_interval : datetime * option datetime :=
  (mk_datetime (Calendar.ymd2ord 2024 1 1) 23 30 0 0 (Some EST),
   Some (mk_datetime (Calendar.ymd2ord 2024 1 2) 0 30 0 0 (Some EST))).

(** A session whose end is an hour before its start. *)
Definition skewed_session : Session :=
  mk_Session (JString "2024-01-02T10:00:00-05:00")
             (JString "2024-01-02T09:00:00-05:00") (JString EmptyString).

Definition skewed_interval : datetime * option datetime :=
  (mk_datetime (Calendar.ymd2ord 2024 1 2) 10 0 0 0 (Some EST),
   Some (mk_datetime (Calendar.ymd2ord 2024 1 2) 9 0 0 0 (Some EST))).

Definition running_session : Session :=
  mk_Session (JString "2024-01-02T09:00:00-05:00") JNull (JString EmptyString).

Definition later_running_session : Session :=
  mk_Session (JString "2024-01-02T11:00:00-05:00") JNull (JString EmptyString).

(** The program after a first start: nothing stored, nothing typed. *)
Definition fresh_sys : Sys := mk_Sys (app_with []) (world_at noon []).

Definition running_sys : Sys := mk_Sys (app_with [running_session]) (world_at noon []).

(** Two sessions without end, as after an edit of the file by hand. *)
Definition two_running_sys : Sys :=
  mk_Sys (app_with [running_session; midnight_session; later_running_session])
         (world_at noon []).

(** The directory is there, but the write of the temporary file is going
    to fail midway. *)
Definition failing_sys : Sys :=
  mk_Sys (app_with []) (world_at noon [NoFault; FailMidway]).

(** A stored record whose start has no UTC offset. *)
Definition naive_record : json :=
  JObject [("start_iso", JString "2024-01-01T23:30:00"); ("end_iso", JNull);
           ("note", JString EmptyString)].

Definition naive_world : World :=
  mk_World true (Some (Doc (JObject [("sessions", JArray [naive_record])]))) None
           (fun _ => noon) 0 [] [].

(** Before the first launch: no directory, no file, no fault to come. *)
Definition first_world : World :=
  mk_World false None None (fun _ => noon) 0 [] [].

(** A day of use: start, type a note, stop, start again, leave with the
    session running, come back, delete the first session, quit. *)
Definition day_of_use : list event :=
  [Launch; Call Toggle; Call (TypeNote " tea "); Call Toggle; Call Toggle;
   Exit; Launch; Call (DeleteSelected [0%nat] true); Call Quit].

(** A data file cut short by an interrupted write. *)
Definition garbled_world : World :=
  mk_World true (Some Garbled) None (fun _ => noon) 0 [] [].

(** A data file whose bytes are not UTF-8. *)
Definition undecodable_world : World :=
  mk_World true (Some Undecodable) None (fun _ => noon) 0 [] [].

(** The text with the given bytes. *)
Definition utf8 (bytes : list nat) : string :=
  fold_right (fun b s => String (ascii_of_nat b) s) EmptyString bytes.

(** The encodings of the characters that [str.isspace] accepts. *)
Definition white_space : list string :=
  map utf8
      [[9]; [10]; [11]; [12]; [13]; [28]; [29]; [30]; [31]; [32];
       [194; 133]; [194; 160]; [225; 154; 128];
       [226; 128; 128]; [226; 128; 129]; [226; 128; 130]; [226; 128; 131];
       [226; 128; 132]; [226; 128; 133]; [226; 128; 134]; [226; 128; 135];
       [226; 128; 136]; [226; 128; 137]; [226; 128; 138];
       [226; 128; 168]; [226; 128; 169]; [226; 128; 175];
       [226; 129; 159]; [227; 128; 128]]%nat.

(** The note U+00A0 tea U+2003 typed into the entry of a fresh program. *)
Definition spaced_note : string :=
  (utf8 [194; 160]%nat ++ "tea" ++ utf8 [226; 128; 131]%nat)%string.

Definition spaced_note_sys : Sys :=
  mk_Sys (mk_App [] spaced_note "Start" None "0:00:00" "0:00:00" []) (world_at noon []).

(** A data file that holds an object without the key "sessions". *)
Definition keyless_world : World :=
  mk_World true (Some (Doc (JObject [("version", JInt 1)]))) None
           (fun _ => noon) 0 [] [].

(** ** Statements of the specification that the code does not meet *)

(** duration is never negative once now is at or after the start. *)
Definition duration_floor_claim : Prop :=
  forall (H : PyDatetime) s iv w,
    parses_to s iv ->
    instant (fst iv) <= instant (datetime_of (clock w (ticks w))) ->
    exists d, fst (duration_seconds s w) = Ok d /\ 0 <= d.

(** With a session running, starting fails and changes nothing. *)
Definition start_rejected_claim : Prop :=
  forall (H : PyDatetime) sys,
    running_session_index (sessions (self sys)) <> None ->
    is_ok (fst (toggle sys)) = false
    /\ sessions (self (snd (toggle sys))) = sessions (self sys).

(** With no session running, stopping fails and writes nothing. *)
Definition stop_rejected_claim : Prop :=
  forall (H : PyDatetime) sys,
    running_session_index (sessions (self sys)) = None ->
    is_ok (fst (toggle sys)) = false
    /\ data_file (world (snd (toggle sys))) = data_file (world sys)
    /\ oplog (world (snd (toggle sys))) = oplog (world sys).

(** When the save of a mutating call fails, the data file and the
    collection in memory are as before the call. *)
Definition save_failure_rollback_claim : Prop :=
  forall (H : PyDatetime) sys c,
    app_dir (world sys) = true -> data_file (world sys) = Some c ->
    fst (toggle sys) = Raise OSError ->
    data_file (world (snd (toggle sys))) = Some c
    /\ sessions (self (snd (toggle sys))) = sessions (self sys).

(** A stored record whose start parses to a naive datetime makes the load
    fail. *)
Definition naive_start_rejected_claim : Prop :=
  forall (H : PyDatetime) w items text end_ note_ d,
    data_file w = Some (Doc (JObject [("sessions", JArray items)])) ->
    In (JObject [("start_iso", JString text); ("end_iso", end_); ("note", note_)]) items ->
    fromisoformat text = Some d -> utcoffset d = None ->
    is_ok (fst (load_sessions w)) = false.

(** ** Properties *)

Section MonadFacts.
Context {S : Type}.

Lemma bind_ok {A B} (m : M S A) (k : A -> M S B) s a s' :
  m s = (Ok a, s') -> bind m k s = k a s'.
Proof. intros E. unfold bind. now rewrite E. Qed.

Lemma bind_raise {A B} (m : M S A) (k : A -> M S B) s e s' :
  m s = (Raise e, s') -> bind m k s = (Raise e, s').
Proof. intros E. unfold bind. now rewrite E. Qed.

(** Inversion of a [bind] that returned. *)
Lemma bind_inv_ok {A B} (m : M S A) (k : A -> M S B) s b s2 :
  bind m k s = (Ok b, s2) ->
  exists a s1, m s = (Ok a, s1) /\ k a s1 = (Ok b, s2).
Proof.
  unfold bind. destruct (m s) as [[a|e] s1]; intros E.
  - eauto.
  - discriminate.
Qed.

Lemma preserves_ret {A X} (f : S -> X) (a : A) : preserves f (ret a).
Proof. now intros s. Qed.

Lemma preserves_raise {A X} (f : S -> X) e : preserves f (@raise S A e).
Proof. now intros s. Qed.

Lemma preserves_gets {A X} (f : S -> X) (g : S -> A) : preserves f (gets g).
Proof. now intros s. Qed.

Lemma preserves_lift_result {A X} (f : S -> X) (r : result A) :
  preserves f (lift_result r).
Proof. now intros s. Qed.

Lemma preserves_bind {A B X} (f : S -> X) (m : M S A) (k : A -> M S B) :
  preserves f m -> (forall a, preserves f (k a)) -> preserves f (bind m k).
Proof.
  intros Hm Hk s. unfold bind. specialize (Hm s).
  destruct (m s) as [[a|e] s1]; simpl in *.
  - now rewrite Hk.
  - exact Hm.
Qed.

Lemma preserves_foldM {A B X} (f : S -> X) (body : A -> B -> M S A) xs :
  (forall a b, preserves f (body a b)) -> forall acc, preserves f (foldM body acc xs).
Proof.
  intros Hb. induction xs as [|x xs IH]; intros acc; simpl.
  - apply preserves_ret.
  - apply preserves_bind; auto.
Qed.

Lemma preserves_mapM {A B X} (f : S -> X) (g : A -> M S B) xs :
  (forall a, preserves f (g a)) -> preserves f (mapM g xs).
Proof.
  intros Hg. induction xs as [|x xs IH]; simpl.
  - apply preserves_ret.
  - apply preserves_bind; [apply Hg|]. intros y.
    apply preserves_bind; [apply IH|]. intros ys. apply preserves_ret.
Qed.

(** What follows a step does not disturb [f]: the final observation is the
    one right after the step. *)
Lemma preserves_after {A B X} (f : S -> X) (m : M S A) (k : A -> M S B) s :
  (forall a, preserves f (k a)) -> f (snd (bind m k s)) = f (snd (m s)).
Proof.
  intros Hk. unfold bind. destruct (m s) as [[a|e] s1]; simpl.
  - apply Hk.
  - reflexivity.
Qed.

(** An invariant of the loop body is an invariant of the loop. *)
Lemma foldM_invariant {A B} (P : A -> Prop) (body : A -> B -> M S A) xs :
  (forall a b s a' s', P a -> body a b s = (Ok a', s') -> P a') ->
  forall acc s r s', P acc -> foldM body acc xs s = (Ok r, s') -> P r.
Proof.
  intros Hb. induction xs as [|x xs IH]; intros acc s r s' Hacc E; simpl in E.
  - unfold ret in E. now inversion E; subst.
  - apply bind_inv_ok in E as (a1 & s1 & E1 & E2). eauto.
Qed.

End MonadFacts.

Create HintDb preserves.
#[local] Hint Resolve preserves_ret preserves_raise preserves_gets
  preserves_lift_result : preserves.

Lemma lift_result_inv {S A} (r : result A) (s s' : S) x :
  lift_result r s = (x, s') -> r = x /\ s' = s.
Proof. unfold lift_result. intros E. now inversion E. Qed.

Lemma ret_inv {S A} (a : A) (s s' : S) x :
  ret a s = (x, s') -> x = Ok a /\ s' = s.
Proof. unfold ret. intros E. now inversion E. Qed.

(** Takes apart a hypothesis saying that a sequence of steps returned. *)
Ltac inv_ok :=
  repeat match goal with
  | E : bind _ _ _ = (Ok _, _) |- _ =>
      let a := fresh "a" in let s := fresh "s" in
      let E1 := fresh "E" in let E2 := fresh "E" in
      apply bind_inv_ok in E as (a & s & E1 & E2); simpl in E1, E2
  | E : lift_result _ _ = (_, _) |- _ =>
      let E1 := fresh "E" in let E2 := fresh "E" in
      apply lift_result_inv in E as [E1 E2]; subst
  | E : ret _ _ = (_, _) |- _ =>
      let E1 := fresh "E" in let E2 := fresh "E" in
      apply ret_inv in E as [E1 E2]; subst
  end.

(** *** datetime arithmetic *)

Lemma wall_of_wall w tz : wall (of_wall w tz) = w.
Proof.
  unfold wall, of_wall, US_PER_DAY, US_PER_SECOND. simpl.
  Z.to_euclidean_division_equations. lia.
Qed.

Lemma toordinal_of_wall w tz : toordinal (of_wall w tz) = w / US_PER_DAY.
Proof. reflexivity. Qed.

Lemma wall_replace_midnight d :
  wall (replace_midnight d) = toordinal d * US_PER_DAY.
Proof. unfold wall, replace_midnight, US_PER_DAY, US_PER_SECOND. simpl. lia. Qed.

Lemma instant_aware d off : utcoffset d = Some off -> instant d = wall d - off.
Proof. unfold instant, utc. now intros ->. Qed.

Lemma dt_sub_ok a b td :
  dt_sub a b = Ok td -> td = instant a - instant b /\ aware a = aware b.
Proof.
  unfold dt_sub, instant, aware.
  destruct (utcoffset a), (utcoffset b); intros E; inversion E; auto.
Qed.

Lemma dt_sub_aware a b :
  aware a = true -> aware b = true -> dt_sub a b = Ok (instant a - instant b).
Proof.
  unfold dt_sub, instant, aware.
  destruct (utcoffset a), (utcoffset b); intros; try discriminate; reflexivity.
Qed.

Lemma dt_max_ok a b m :
  dt_max a b = Ok m ->
  instant m = Z.max (instant a) (instant b) /\ aware m = aware a /\ aware b = aware a.
Proof.
  unfold dt_max, dt_gt. destruct (dt_sub b a) as [d|e] eqn:E; [|discriminate].
  apply dt_sub_ok in E as [-> Haw]. intros E. inversion E; subst.
  destruct (0 <? instant b - instant a) eqn:C.
  - apply Z.ltb_lt in C. repeat split; auto; lia.
  - apply Z.ltb_ge in C. repeat split; auto; lia.
Qed.

Lemma dt_min_ok a b m :
  dt_min a b = Ok m ->
  instant m = Z.min (instant a) (instant b) /\ aware m = aware a /\ aware b = aware a.
Proof.
  unfold dt_min, dt_lt, dt_gt. destruct (dt_sub a b) as [d|e] eqn:E; [|discriminate].
  apply dt_sub_ok in E as [-> Haw]. intros E. inversion E; subst.
  destruct (0 <? instant a - instant b) eqn:C.
  - apply Z.ltb_lt in C. repeat split; auto; lia.
  - apply Z.ltb_ge in C. repeat split; auto; lia.
Qed.

Lemma dt_max_aware a b :
  aware a = true -> aware b = true ->
  exists m, dt_max a b = Ok m /\ aware m = true
            /\ instant m = Z.max (instant a) (instant b).
Proof.
  intros Ha Hb. unfold dt_max, dt_gt. rewrite (dt_sub_aware b a Hb Ha).
  eexists. split; [reflexivity|].
  destruct (0 <? instant b - instant a) eqn:C.
  - apply Z.ltb_lt in C. split; auto; lia.
  - apply Z.ltb_ge in C. split; auto; lia.
Qed.

Lemma dt_min_aware a b :
  aware a = true -> aware b = true ->
  exists m, dt_min a b = Ok m /\ aware m = true
            /\ instant m = Z.min (instant a) (instant b).
Proof.
  intros Ha Hb. unfold dt_min, dt_lt, dt_gt. rewrite (dt_sub_aware a b Ha Hb).
  eexists. split; [reflexivity|].
  destruct (0 <? instant a - instant b) eqn:C.
  - apply Z.ltb_lt in C. split; auto; lia.
  - apply Z.ltb_ge in C. split; auto; lia.
Qed.

Lemma int_total_seconds_small (H : PyDatetime) td :
  - US_PER_SECOND <= td <= 0 ->
  int_total_seconds td = Z.quot td US_PER_SECOND.
Proof. intros Htd. apply total_seconds_exact. unfold US_PER_SECOND in *. lia. Qed.

Lemma int_total_seconds_nonneg (H : PyDatetime) td :
  0 <= td -> 0 <= int_total_seconds td.
Proof.
  intros Htd. pose proof (total_seconds_mono 0 td Htd) as Hm.
  rewrite (int_total_seconds_small H 0) in Hm by (unfold US_PER_SECOND; lia).
  exact Hm.
Qed.

(** The seconds are negative exactly from one whole second below zero. *)
Lemma int_total_seconds_sign (H : PyDatetime) td :
  0 <= int_total_seconds td <-> - US_PER_SECOND < td.
Proof.
  split.
  - intros Hpos. destruct (Z.lt_ge_cases (- US_PER_SECOND) td) as [|Hle]; [assumption|].
    apply (total_seconds_mono td (- US_PER_SECOND)) in Hle.
    rewrite (int_total_seconds_small H (- US_PER_SECOND)) in Hle
      by (unfold US_PER_SECOND; lia).
    change (Z.quot (- US_PER_SECOND) US_PER_SECOND) with (-1) in Hle. lia.
  - intros Hlt. destruct (Z.le_gt_cases 0 td) as [Hpos|Hneg].
    + now apply int_total_seconds_nonneg.
    + rewrite (int_total_seconds_small H td) by lia.
      unfold US_PER_SECOND in *. Z.to_euclidean_division_equations. lia.
Qed.

Section TimeArithmetic.
Context `{PyDatetime}.

(** One turn of the loop adds to [all_sec] at least what it adds to
    [today_sec]. *)
Lemma totals_step_le today_start tomorrow_start acc s w acc' w' :
  totals_step today_start tomorrow_start acc s w = (Ok acc', w') ->
  fst acc <= snd acc -> fst acc' <= snd acc'.
Proof.
  destruct acc as [t a]. unfold totals_step. intros E Hle. inv_ok.
  match goal with E : Ok _ = Ok _ |- _ => inversion E; subst; clear E end.
  repeat match goal with
  | E : dt_sub _ _ = Ok _ |- _ => apply dt_sub_ok in E as [-> _]
  | E : dt_max _ _ = Ok _ |- _ => apply dt_max_ok in E as (E & _)
  | E : dt_min _ _ = Ok _ |- _ => apply dt_min_ok in E as (E & _)
  end.
  simpl in *.
  match goal with
  | Hmax : instant ?os = Z.max (instant ?st) _,
    Hmin : instant ?oe = Z.min (instant ?en) _ |- _ =>
      assert (Hmono : int_total_seconds (instant oe - instant os)
                      <= int_total_seconds (instant en - instant st))
        by (apply total_seconds_mono; lia)
  end.
  repeat match goal with |- context [0 <? ?x] => destruct (Z.ltb_spec 0 x) end; lia.
Qed.

Lemma compute_totals_le sessions w today_sec all_sec w' :
  compute_totals sessions w = (Ok (today_sec, all_sec), w') -> today_sec <= all_sec.
Proof.
  unfold compute_totals. intros E. inv_ok.
  match goal with
  | E : foldM _ _ _ _ = _ |- _ =>
      apply (foldM_invariant (fun acc => fst acc <= snd acc)) in E
  end; simpl in *; try lia.
  intros acc s0 w0 acc' w0' Hacc Hstep. eapply totals_step_le; eauto.
Qed.

Lemma now_local_frozen w now :
  (forall n, clock w n = now) ->
  now_local w = (Ok (datetime_of now), set_ticks (Datatypes.S (ticks w)) w).
Proof. intros Hc. unfold now_local, datetime_of. now rewrite Hc. Qed.

Lemma end_or_now_frozen s e w now :
  (forall n, clock w n = now) -> end_dt s = Ok e ->
  exists w', end_or_now s w = (Ok (Spec.end_or (datetime_of now) e), w')
             /\ clock w' = clock w.
Proof.
  intros Hc He. unfold end_or_now, bind, lift_result. rewrite He.
  destruct e as [d|]; simpl.
  - eexists. split; [reflexivity|reflexivity].
  - rewrite (now_local_frozen w now Hc). eexists. split; reflexivity.
Qed.

Lemma clamp_add t x : (if 0 <? x then t + x else t) = t + Z.max 0 x.
Proof. destruct (Z.ltb_spec 0 x); lia. Qed.

Lemma totals_step_frozen today_start tomorrow_start t a s iv w now :
  (forall n, clock w n = now) ->
  parses_to s iv ->
  aware today_start = true -> aware tomorrow_start = true ->
  let e := Spec.end_or (datetime_of now) (snd iv) in
  exists w',
    totals_step today_start tomorrow_start (t, a) s w
    = (Ok (t + Z.max 0 (int_total_seconds
                          (Z.min (instant e) (instant tomorrow_start)
                           - Z.max (instant (fst iv)) (instant today_start))),
           a + Z.max 0 (int_total_seconds (instant e - instant (fst iv)))), w')
    /\ clock w' = clock w.
Proof.
  intros Hc (Hs & He & Has & Hae) Hts Htm e.
  destruct (end_or_now_frozen s (snd iv) w now Hc He) as (w' & Hen & Hcw).
  assert (Haw : aware e = true).
  { subst e. destruct (snd iv) as [d|] eqn:Ed; simpl; auto. }
  destruct (dt_max_aware (fst iv) today_start Has Hts) as (os & Hos & Hosa & Hosi).
  destruct (dt_min_aware e tomorrow_start Haw Htm) as (oe & Hoe & Hoea & Hoei).
  exists w'. split; [|exact Hcw].
  unfold totals_step, bind, lift_result. rewrite Hs, Hen.
  fold e. rewrite (dt_sub_aware e (fst iv) Haw Has), Hos, Hoe.
  rewrite (dt_sub_aware oe os Hoea Hosa), Hosi, Hoei.
  unfold ret. now rewrite !clamp_add.
Qed.

Lemma totals_loop_frozen today_start tomorrow_start now sessions ivs :
  Forall2 parses_to sessions ivs ->
  aware today_start = true -> aware tomorrow_start = true ->
  forall t a w, (forall n, clock w n = now) ->
  fst (foldM (totals_step today_start tomorrow_start) (t, a) sessions w)
  = Ok (t + sum_Z (map (fun iv =>
                Z.max 0 (int_total_seconds
                  (Z.min (instant (Spec.end_or (datetime_of now) (snd iv)))
                         (instant tomorrow_start)
                   - Z.max (instant (fst iv)) (instant today_start)))) ivs),
        a + sum_Z (map (Spec.duration (datetime_of now)) ivs)).
Proof.
  intros Hall Hts Htm. induction Hall as [|s iv ss ivs Hp _ IH]; intros t a w Hc.
  - simpl. f_equal. f_equal; lia.
  - destruct (totals_step_frozen today_start tomorrow_start t a s iv w now
                Hc Hp Hts Htm) as (w' & Hstep & Hcw).
    change (foldM ?f ?acc (s :: ss) w)
      with (bind (f acc s) (fun acc' => foldM f acc' ss) w).
    rewrite (bind_ok _ _ _ _ _ Hstep).
    rewrite IH by (intros n; rewrite Hcw; apply Hc).
    simpl. unfold Spec.duration at 2. f_equal. f_equal; lia.
Qed.

Lemma tomorrow_of_today now :
  has_tomorrow now ->
  exists tm, dt_add (replace_midnight (datetime_of now)) (timedelta_days 1) = Ok tm
             /\ aware tm = true
             /\ instant tm = instant (replace_midnight (datetime_of now))
                             + 24 * 3600 * US_PER_SECOND.
Proof.
  intros [Hlo Hhi]. unfold dt_add.
  set (today := replace_midnight (datetime_of now)).
  assert (Hw : wall today + timedelta_days 1
               = (local_wall now / US_PER_DAY + 1) * US_PER_DAY).
  { subst today. rewrite wall_replace_midnight. unfold datetime_of.
    rewrite toordinal_of_wall. unfold timedelta_days. lia. }
  assert (Hord : toordinal (of_wall (wall today + timedelta_days 1) (utcoffset today))
                 = local_wall now / US_PER_DAY + 1).
  { rewrite toordinal_of_wall, Hw. apply Z.div_mul. unfold US_PER_DAY, US_PER_SECOND. lia. }
  rewrite Hord.
  replace (0 <? local_wall now / US_PER_DAY + 1) with true
    by (symmetry; apply Z.ltb_lt; lia).
  replace (local_wall now / US_PER_DAY + 1 <=? MAXORDINAL) with true
    by (symmetry; apply Z.leb_le; lia).
  simpl andb. cbv iota. eexists. split; [reflexivity|]. split; [reflexivity|].
  unfold instant. simpl utcoffset. unfold utc. rewrite wall_of_wall.
  unfold timedelta_days, US_PER_DAY. lia.
Qed.

(** [compute_totals] with the clock standing at [now]. *)
Lemma compute_totals_frozen sessions ivs w now :
  (forall n, clock w n = now) ->
  has_tomorrow now ->
  Forall2 parses_to sessions ivs ->
  fst (compute_totals sessions w)
  = Ok (Spec.today_seconds ivs (datetime_of now),
        Spec.total_seconds ivs (datetime_of now)).
Proof.
  intros Hc Hrange Hall.
  destruct (tomorrow_of_today now Hrange) as (tm & Htm & Htma & Htmi).
  unfold compute_totals, start_of_today_local.
  unfold bind at 1. unfold bind at 1. rewrite (now_local_frozen w now Hc).
  unfold ret at 1. unfold bind at 1. unfold lift_result at 1. rewrite Htm.
  rewrite (totals_loop_frozen (replace_midnight (datetime_of now)) tm now sessions ivs)
    by (auto; intros n; apply Hc).
  unfold Spec.today_seconds, Spec.total_seconds, Spec.overlap, Spec.day_start.
  rewrite Htmi. reflexivity.
Qed.

(** [duration_seconds] returns the truncated difference as it is. *)
Lemma duration_seconds_value s iv w :
  parses_to s iv ->
  fst (duration_seconds s w)
  = Ok (int_total_seconds
          (instant (Spec.end_or (datetime_of (clock w (ticks w))) (snd iv))
           - instant (fst iv))).
Proof.
  intros (Hs & He & Has & Hae).
  unfold duration_seconds, end_or_now, bind, lift_result. rewrite Hs, He.
  destruct (snd iv) as [e|] eqn:Ee; simpl.
  - rewrite (dt_sub_aware e (fst iv) (Hae e eq_refl) Has). reflexivity.
  - fold (datetime_of (clock w (ticks w))).
    rewrite (dt_sub_aware (datetime_of (clock w (ticks w))) (fst iv) eq_refl Has).
    reflexivity.
Qed.

Lemma fmt_duration_clamps d : fmt_duration d = fmt_duration (Z.max 0 d).
Proof.
  unfold fmt_duration. destruct (Z.ltb_spec d 0).
  - now rewrite Z.max_l by lia.
  - rewrite Z.max_r by lia. destruct (Z.ltb_spec d 0); [lia|reflexivity].
Qed.

End TimeArithmetic.

(** *** What the computations leave alone *)

Ltac preserves_tac :=
  repeat first
    [ apply preserves_bind; [|intros ?]
    | apply preserves_foldM; intros ? ?
    | apply preserves_mapM; intros ?
    | solve [eauto with preserves]
    | match goal with |- preserves _ (match ?x with _ => _ end) => destruct x end
    | solve [intros ?; reflexivity] ].

Section Frames.
Context `{PyDatetime}.

Lemma now_local_disk : preserves disk now_local.
Proof. intros w. reflexivity. Qed.

Lemma now_local_clock : preserves clock now_local.
Proof. intros w. reflexivity. Qed.

#[local] Hint Resolve now_local_disk now_local_clock : preserves.

Lemma end_or_now_disk s : preserves disk (end_or_now s).
Proof. unfold end_or_now. preserves_tac. Qed.

#[local] Hint Resolve end_or_now_disk : preserves.

Lemma duration_seconds_disk s : preserves disk (duration_seconds s).
Proof. unfold duration_seconds. preserves_tac. Qed.

Lemma compute_totals_disk ss : preserves disk (compute_totals ss).
Proof. unfold compute_totals, start_of_today_local, totals_step. preserves_tac. Qed.

#[local] Hint Resolve duration_seconds_disk compute_totals_disk : preserves.

Lemma refresh_row_disk rows entry : preserves disk (refresh_row rows entry).
Proof. unfold refresh_row. preserves_tac. Qed.

#[local] Hint Resolve refresh_row_disk : preserves.

Lemma in_world_self {A X} (f : TimeClockApp -> X) (m : M World A) :
  preserves (fun s => f (self s)) (in_world m).
Proof. intros s. unfold in_world. now destruct (m (world s)). Qed.

Lemma in_world_world {A X} (g : World -> X) (m : M World A) :
  preserves g m -> preserves (fun s => g (world s)) (in_world m).
Proof.
  intros Hm s. unfold in_world. specialize (Hm (world s)).
  now destruct (m (world s)).
Qed.

Lemma on_self_world {X} (g : World -> X) f :
  preserves (fun s => g (world s)) (on_self f).
Proof. intros s. reflexivity. Qed.

Lemma on_self_sessions f :
  (forall a, sessions (f a) = sessions a) ->
  preserves (fun s => sessions (self s)) (on_self f).
Proof. intros Hf s. simpl. apply Hf. Qed.

#[local] Hint Resolve in_world_self on_self_world : preserves.
#[local] Hint Extern 1 (preserves (fun s => sessions (self s)) (on_self _)) =>
  apply on_self_sessions; intros ?; reflexivity : preserves.
#[local] Hint Extern 2 (preserves (fun s => _ (world s)) (in_world _)) =>
  apply in_world_world : preserves.

(** [refresh] redraws the widgets; the session list and the files stay as
    they are. *)
Lemma refresh_sessions : preserves (fun s => sessions (self s)) refresh.
Proof. unfold refresh. preserves_tac. Qed.

Lemma refresh_disk : preserves (fun s => disk (world s)) refresh.
Proof. unfold refresh. preserves_tac. Qed.

End Frames.

(** *** Storage *)

Lemma next_fault_eq w :
  next_fault w = (Ok (hd NoFault (faults w)), set_faults (tl (faults w)) w).
Proof. unfold next_fault. destruct w as [? ? ? ? ? [|f fs] ?]; reflexivity. Qed.

Lemma quiet_hd l : Forall (fun f => f = NoFault) l -> hd NoFault l = NoFault.
Proof. intros Hq. destruct Hq; auto. Qed.

Lemma quiet_tl l :
  Forall (fun f => f = NoFault) l -> Forall (fun f => f = NoFault) (tl l).
Proof. intros Hq. destruct Hq; simpl; auto. Qed.

Lemma mkdir_app_dir_cases w :
  app_dir w = true ->
  mkdir_app_dir w = (Ok tt, popped w) \/ mkdir_app_dir w = (Raise OSError, popped w).
Proof.
  intros Hdir. unfold mkdir_app_dir, bind, raise. rewrite next_fault_eq.
  destruct (hd NoFault (faults w)); simpl; rewrite ?Hdir; auto.
Qed.

Lemma mkdir_app_dir_quiet w :
  quiet w ->
  mkdir_app_dir w
  = (Ok tt, if app_dir w then popped w else log_op OpMkdir (set_app_dir true (popped w))).
Proof.
  intros Hq. unfold mkdir_app_dir, bind. rewrite next_fault_eq, (quiet_hd _ Hq).
  simpl. now destruct (app_dir w).
Qed.

Lemma write_text_cases p j w :
  app_dir w = true ->
  write_text p j w
  = (Ok tt, log_op (OpWrite p (Doc j)) (set_file p (Some (Doc j)) (popped w)))
  \/ write_text p j w = (Raise OSError, popped w)
  \/ write_text p j w
     = (Raise OSError, log_op (OpWrite p Garbled) (set_file p (Some Garbled) (popped w))).
Proof.
  intros Hdir. unfold write_text, bind. rewrite next_fault_eq.
  change (app_dir (set_faults (tl (faults w)) w)) with (app_dir w). rewrite Hdir.
  destruct (hd NoFault (faults w)); simpl; auto.
Qed.

Lemma write_text_quiet p j w :
  quiet w -> app_dir w = true ->
  write_text p j w
  = (Ok tt, log_op (OpWrite p (Doc j)) (set_file p (Some (Doc j)) (popped w))).
Proof.
  intros Hq Hdir. unfold write_text, bind. rewrite next_fault_eq, (quiet_hd _ Hq).
  change (app_dir (set_faults (tl (faults w)) w)) with (app_dir w). now rewrite Hdir.
Qed.

Lemma read_text_quiet p c w :
  quiet w -> file p w = Some c ->
  read_text p w
  = (match c with Undecodable => Raise UnicodeDecodeError | _ => Ok c end, popped w).
Proof.
  intros Hq Hf. unfold read_text, bind. rewrite next_fault_eq, (quiet_hd _ Hq).
  replace (file p (set_faults (tl (faults w)) w)) with (file p w)
    by (now destruct p).
  rewrite Hf. now destruct c.
Qed.

Lemma os_replace_cases src dst c w :
  file src w = Some c ->
  os_replace src dst w
  = (Ok tt, log_op (OpReplace src dst) (set_file dst (Some c) (set_file src None (popped w))))
  \/ os_replace src dst w = (Raise OSError, popped w).
Proof.
  intros Hf. unfold os_replace, bind. rewrite next_fault_eq.
  replace (file src (set_faults (tl (faults w)) w)) with (file src w)
    by (now destruct src).
  rewrite Hf. destruct (hd NoFault (faults w)); simpl; auto.
Qed.

Lemma os_replace_quiet src dst c w :
  quiet w -> file src w = Some c ->
  os_replace src dst w
  = (Ok tt, log_op (OpReplace src dst) (set_file dst (Some c) (set_file src None (popped w)))).
Proof.
  intros Hq Hf. unfold os_replace, bind. rewrite next_fault_eq, (quiet_hd _ Hq).
  replace (file src (set_faults (tl (faults w)) w)) with (file src w)
    by (now destruct src).
  now rewrite Hf.
Qed.

Lemma quiet_popped w : quiet w -> quiet (popped w).
Proof. unfold quiet, popped. simpl. apply quiet_tl. Qed.

Lemma ensure_storage_present w c :
  app_dir w = true -> data_file w = Some c ->
  ensure_storage w = (Ok tt, popped w) \/ ensure_storage w = (Raise OSError, popped w).
Proof.
  intros Hdir Hfile. unfold ensure_storage.
  destruct (mkdir_app_dir_cases w Hdir) as [E|E].
  - left. rewrite (bind_ok _ _ _ _ _ E). unfold bind, exists_, gets. simpl.
    now rewrite Hfile.
  - right. now rewrite (bind_raise _ _ _ _ _ E).
Qed.

(** Without faults [ensure_storage] returns, and afterwards the directory
    and the data file exist; a data file that was there is left alone. *)
Lemma ensure_storage_quiet w :
  quiet w ->
  exists w', ensure_storage w = (Ok tt, w') /\ quiet w' /\ app_dir w' = true
             /\ data_file w' = Some (match data_file w with
                                     | Some c => c
                                     | None => Doc empty_store
                                     end)
             /\ tmp_file w' = tmp_file w
             /\ clock w' = clock w /\ ticks w' = ticks w.
Proof.
  intros Hq. unfold ensure_storage.
  rewrite (bind_ok _ _ _ _ _ (mkdir_app_dir_quiet w Hq)).
  set (w1 := if app_dir w then popped w else log_op OpMkdir (set_app_dir true (popped w))).
  assert (Hq1 : quiet w1) by (subst w1; destruct (app_dir w); apply (quiet_popped w Hq)).
  assert (Hd1 : app_dir w1 = true) by (subst w1; now destruct (app_dir w) eqn:E).
  assert (Hf1 : data_file w1 = data_file w) by (subst w1; now destruct (app_dir w)).
  assert (Ht1 : tmp_file w1 = tmp_file w) by (subst w1; now destruct (app_dir w)).
  assert (Hc1 : clock w1 = clock w) by (subst w1; now destruct (app_dir w)).
  assert (Hk1 : ticks w1 = ticks w) by (subst w1; now destruct (app_dir w)).
  clearbody w1.
  assert (Ex : exists_ DATA_FILE w1
               = (Ok (match data_file w with Some _ => true | None => false end), w1))
    by (unfold exists_, gets; simpl; now rewrite Hf1).
  rewrite (bind_ok _ _ _ _ _ Ex).
  destruct (data_file w) as [c|] eqn:Ef; simpl.
  - exists w1. unfold ret. repeat split; auto.
  - rewrite (write_text_quiet DATA_FILE empty_store w1 Hq1 Hd1).
    eexists. split; [reflexivity|].
    repeat split; simpl; auto. apply (quiet_popped w1 Hq1).
Qed.

Section Storage.
Context `{PyDatetime}.

(** With the directory and the data file in place, [save_sessions] either
    returns, having written the temporary file and renamed it over the data
    file, or raises [OSError] with the data file as it was. *)
Lemma save_sessions_outcome ss w c :
  app_dir w = true -> data_file w = Some c ->
  (fst (save_sessions ss w) = Ok tt
   /\ data_file (snd (save_sessions ss w)) = Some (Doc (store_of ss))
   /\ tmp_file (snd (save_sessions ss w)) = None
   /\ oplog (snd (save_sessions ss w))
      = OpReplace TMP_FILE DATA_FILE :: OpWrite TMP_FILE (Doc (store_of ss)) :: oplog w)
  \/
  (fst (save_sessions ss w) = Raise OSError
   /\ data_file (snd (save_sessions ss w)) = Some c
   /\ (oplog (snd (save_sessions ss w)) = oplog w
       \/ exists t, oplog (snd (save_sessions ss w)) = OpWrite TMP_FILE t :: oplog w)).
Proof.
  intros Hdir Hfile.
  unfold save_sessions.
  destruct (ensure_storage_present w c Hdir Hfile) as [E|E];
    [rewrite (bind_ok _ _ _ _ _ E) | rewrite (bind_raise _ _ _ _ _ E); right; auto].
  destruct (write_text_cases TMP_FILE (store_of ss) (popped w) Hdir) as [E1|[E1|E1]];
    [rewrite (bind_ok _ _ _ _ _ E1)
    | rewrite (bind_raise _ _ _ _ _ E1); right; auto
    | rewrite (bind_raise _ _ _ _ _ E1); right; simpl; eauto].
  match goal with
  | |- context [os_replace TMP_FILE DATA_FILE ?w1] =>
      destruct (os_replace_cases TMP_FILE DATA_FILE (Doc (store_of ss)) w1 eq_refl)
        as [E2|E2]; rewrite E2
  end.
  - left. simpl. auto.
  - right. simpl. eauto.
Qed.

(** Without faults [save_sessions] returns and the data file holds the
    whole collection. *)
Lemma save_sessions_quiet ss w :
  quiet w ->
  exists w', save_sessions ss w = (Ok tt, w') /\ quiet w'
             /\ data_file w' = Some (Doc (store_of ss)) /\ tmp_file w' = None
             /\ hd_error (oplog w') = Some (OpReplace TMP_FILE DATA_FILE).
Proof.
  intros Hq. unfold save_sessions.
  destruct (ensure_storage_quiet w Hq) as (w1 & E & Hq1 & Hd1 & _).
  rewrite (bind_ok _ _ _ _ _ E).
  rewrite (bind_ok _ _ _ _ _ (write_text_quiet TMP_FILE (store_of ss) w1 Hq1 Hd1)).
  erewrite os_replace_quiet; [|apply (quiet_popped w1 Hq1)|reflexivity].
  eexists. split; [reflexivity|]. repeat split; auto.
  apply (quiet_popped (popped w1)), (quiet_popped w1 Hq1).
Qed.

End Storage.

Section Loading.
Context `{PyDatetime}.

Lemma Session_of_kwargs_asdict s : Session_of_kwargs (asdict s) = Ok s.
Proof. destruct s. reflexivity. Qed.

Lemma load_items_asdict ss (w : World) :
  mapM (fun s => lift_result (Session_of_kwargs s)) (map asdict ss) w = (Ok ss, w).
Proof.
  induction ss as [|s ss IH]; cbn [map mapM].
  - reflexivity.
  - erewrite bind_ok;
      [|unfold lift_result; rewrite Session_of_kwargs_asdict; reflexivity].
    erewrite bind_ok; [|apply IH]. reflexivity.
Qed.

(** [load_sessions] up to the parsed document, when no I/O call fails. *)
Lemma load_sessions_quiet w c :
  quiet w -> data_file w = Some c ->
  exists w', load_sessions w
             = bind (lift_result (json_loads c))
                 (fun raw =>
                    let! v := lift_result (raw_get_sessions raw) in
                    let! items := lift_result (py_iter v) in
                    mapM (fun s => lift_result (Session_of_kwargs s)) items) w'
             /\ data_file w' = Some c.
Proof.
  intros Hq Hf. unfold load_sessions.
  destruct (ensure_storage_quiet w Hq) as (w1 & E & Hq1 & Hd1 & Hf1 & _).
  rewrite Hf in Hf1.
  rewrite (bind_ok _ _ _ _ _ E).
  pose proof (read_text_quiet DATA_FILE c w1 Hq1 Hf1) as Er.
  exists (popped w1). split; [|exact Hf1].
  destruct c.
  - now rewrite (bind_ok _ _ _ _ _ Er).
  - now rewrite (bind_ok _ _ _ _ _ Er).
  - now rewrite (bind_raise _ _ _ _ _ Er).
Qed.

End Loading.

Section Toggle.
Context `{PyDatetime}.

(** *** The running session lookup *)

Lemma running_from_Some ss n i :
  running_from ss n = Some i ->
  (i < n)%nat
  /\ (exists s, ss !! i = Some s /\ is_running s = true)
  /\ (forall j s', (i < j < n)%nat -> ss !! j = Some s' -> is_running s' = false).
Proof.
  induction n as [|n IH]; simpl; [discriminate|].
  destruct (ss !! n) as [s|] eqn:E.
  - destruct (is_running s) eqn:R.
    + intros [= <-]. split; [lia|]. split; [eauto|]. intros j s' Hj. lia.
    + intros Hi. destruct (IH Hi) as (Hlt & Hs & Hafter).
      split; [lia|]. split; [exact Hs|]. intros j s' Hj Hl.
      destruct (decide (j = n)) as [->|Hne].
      * rewrite E in Hl. now inversion Hl; subst.
      * apply (Hafter j s'); [lia|exact Hl].
  - intros Hi. destruct (IH Hi) as (Hlt & Hs & Hafter).
    split; [lia|]. split; [exact Hs|]. intros j s' Hj Hl.
    destruct (decide (j = n)) as [->|Hne].
    + rewrite E in Hl. discriminate.
    + apply (Hafter j s'); [lia|exact Hl].
Qed.

Lemma running_from_None ss n :
  running_from ss n = None ->
  forall j s', (j < n)%nat -> ss !! j = Some s' -> is_running s' = false.
Proof.
  induction n as [|n IH]; simpl; intros Hn j s' Hj Hl; [lia|].
  destruct (ss !! n) as [s|] eqn:E.
  - destruct (is_running s) eqn:R; [discriminate|].
    destruct (decide (j = n)) as [->|Hne].
    + rewrite E in Hl. now inversion Hl; subst.
    + apply (IH Hn j s'); [lia|exact Hl].
  - destruct (decide (j = n)) as [->|Hne].
    + rewrite E in Hl. discriminate.
    + apply (IH Hn j s'); [lia|exact Hl].
Qed.

(** The lookup returns the greatest index of a running session. *)
Lemma running_session_index_Some ss i :
  running_session_index ss = Some i ->
  (exists s, ss !! i = Some s /\ is_running s = true)
  /\ (forall j s', (i < j)%nat -> ss !! j = Some s' -> is_running s' = false).
Proof.
  unfold running_session_index. intros Hi.
  destruct (running_from_Some ss (length ss) i Hi) as (_ & Hs & Hafter).
  split; [exact Hs|]. intros j s' Hj Hl. apply (Hafter j s'); [|exact Hl].
  split; [lia|]. apply lookup_lt_Some in Hl. lia.
Qed.

Lemma running_session_index_None ss :
  running_session_index ss = None ->
  forall j s', ss !! j = Some s' -> is_running s' = false.
Proof.
  unfold running_session_index. intros Hn j s' Hl.
  apply (running_from_None ss (length ss) Hn j s'); [|exact Hl].
  now apply lookup_lt_Some in Hl.
Qed.

(** *** Counting the running sessions *)

Lemma count_running_app ss ts :
  count_running (ss ++ ts) = (count_running ss + count_running ts)%nat.
Proof. unfold count_running. now rewrite List.filter_app, length_app. Qed.

Lemma count_running_none ss :
  (forall j s', ss !! j = Some s' -> is_running s' = false) -> count_running ss = 0%nat.
Proof.
  induction ss as [|s ss IH]; intros Hall; [reflexivity|].
  unfold count_running in *. simpl.
  rewrite (Hall 0%nat s eq_refl). apply IH.
  intros j s' Hl. apply (Hall (Datatypes.S j) s' Hl).
Qed.

(** Closing a running session takes one off the count. *)
Lemma count_running_alter f ss i s :
  ss !! i = Some s -> is_running s = true -> is_running (f s) = false ->
  Datatypes.S (count_running (alter f i ss)) = count_running ss.
Proof.
  revert i. induction ss as [|x ss IH]; intros [|i] Hl Hr Hf; try discriminate.
  - simpl in Hl. inversion Hl; subst. unfold count_running. simpl.
    now rewrite Hr, Hf.
  - simpl in Hl. unfold count_running in *. simpl.
    destruct (is_running x); simpl; now rewrite <- (IH i Hl Hr Hf).
Qed.

Lemma count_running_delete i ss :
  (count_running (delete i ss) <= count_running ss)%nat.
Proof.
  revert i. induction ss as [|x ss IH]; intros [|i]; simpl; try lia.
  - unfold count_running. simpl. destruct (is_running x); simpl; lia.
  - specialize (IH i). unfold count_running in *. simpl.
    destruct (is_running x); simpl; lia.
Qed.

Lemma length_delete_le i (ss : list Session) :
  (length (delete i ss) <= length ss)%nat.
Proof.
  revert i. induction ss as [|x ss IH]; intros [|i]; simpl; try lia.
  specialize (IH i). lia.
Qed.

Lemma delete_indices_le indices ss :
  (length (delete_indices indices ss) <= length ss)%nat
  /\ (count_running (delete_indices indices ss) <= count_running ss)%nat.
Proof.
  unfold delete_indices. revert ss.
  induction indices as [|i indices IH]; intros ss; simpl; [lia|].
  destruct (i <? length ss)%nat.
  - destruct (IH (delete i ss)) as [Hl Hc].
    pose proof (length_delete_le i ss). pose proof (count_running_delete i ss). lia.
  - apply IH.
Qed.

(** *** [toggle] *)

Lemma toggle_eq sys :
  toggle sys
  = bind (in_world (save_sessions (sessions (self (mutated sys))))) (fun _ => refresh)
      (mutated sys).
Proof.
  unfold toggle, mutated. unfold bind at 1. unfold gets at 1.
  destruct (running_session_index (sessions (self sys))); reflexivity.
Qed.

Lemma toggle_sessions sys :
  sessions (self (snd (toggle sys))) = sessions (self (mutated sys)).
Proof.
  rewrite toggle_eq.
  rewrite (preserves_after (fun s => sessions (self s))) by (intros _; apply refresh_sessions).
  apply (in_world_self sessions).
Qed.

Lemma in_world_eq {A} (m : M World A) sys r w' :
  m (world sys) = (r, w') -> in_world m sys = (r, mk_Sys (self sys) w').
Proof. intros E. unfold in_world. now rewrite E. Qed.

(** Without faults the data file holds the changed collection when
    [toggle] is over. *)
Lemma toggle_saves sys :
  quiet (world sys) ->
  data_file (world (snd (toggle sys)))
  = Some (Doc (store_of (sessions (self (snd (toggle sys))))))
  /\ hd_error (oplog (world (snd (toggle sys)))) = Some (OpReplace TMP_FILE DATA_FILE).
Proof.
  intros Hq. rewrite toggle_sessions. rewrite toggle_eq.
  assert (Hq1 : quiet (world (mutated sys))).
  { unfold mutated. destruct (running_session_index (sessions (self sys))); exact Hq. }
  destruct (save_sessions_quiet (sessions (self (mutated sys))) (world (mutated sys)) Hq1)
    as (w' & E & _ & Hd & _ & Hlog).
  rewrite (bind_ok _ _ _ _ _ (in_world_eq _ _ _ _ E)).
  pose proof (refresh_disk (mk_Sys (self (mutated sys)) w')) as Hr.
  unfold disk in Hr. simpl in Hr. inversion Hr as [[Ha Hb Hc Hf Hl]].
  rewrite Hb, Hl. auto.
Qed.

(** *** [delete_selected] *)

Lemma delete_selected_sessions sel confirmed sys :
  sessions (self (snd (delete_selected sel confirmed sys)))
  = match sel with
    | [] => sessions (self sys)
    | _ => if confirmed
           then delete_indices (sorted_reverse sel) (sessions (self sys))
           else sessions (self sys)
    end.
Proof.
  unfold delete_selected. destruct sel as [|i sel]; [reflexivity|].
  destruct confirmed; [|reflexivity]. cbn [negb].
  rewrite (preserves_after (fun s => sessions (self s))).
  - reflexivity.
  - intros _. apply preserves_bind; [auto with preserves|]. intros ss'.
    apply preserves_bind; [apply (in_world_self sessions)|].
    intros _. apply refresh_sessions.
Qed.

End Toggle.

(** ** The properties of the specification *)

(** C1. With the clock standing at [now], [compute_totals] returns as
    today's seconds the sum over all sessions of the overlap
    max(0, min(end, tomorrow_start) - max(start, today_start)) of
    [start, end-or-now) with the 24 hours from the start of today, and as
    total the sum of the floored durations. The session from 23:30 to 00:30
    across the midnight before noon of 2024-01-02 counts 1800 seconds for
    today and 3600 seconds in total. *)
Theorem today_seconds_is_overlap_sum :
  (forall (H : PyDatetime) sessions ivs w now,
     (forall n, clock w n = now) ->
     has_tomorrow now ->
     Forall2 parses_to sessions ivs ->
     fst (compute_totals sessions w)
     = Ok (Spec.today_seconds ivs (datetime_of now),
           Spec.total_seconds ivs (datetime_of now)))
  /\ @parses_to (FixedZone EST) midnight_session midnight_interval
  /\ @Spec.overlap (FixedZone EST) (datetime_of noon) midnight_interval = 1800
  /\ @Spec.duration (FixedZone EST) (datetime_of noon) midnight_interval = 3600
  /\ fst (@compute_totals (FixedZone EST) [midnight_session] (world_at noon []))
     = Ok (1800, 3600).
Proof.
  split; [intros H; apply compute_totals_frozen|].
  split.
  { repeat split. intros e [= <-]. reflexivity. }
  repeat split; vm_compute; reflexivity.
Qed.

(** C6. Whatever the sessions and the clock, the seconds that
    [compute_totals] returns for today do not exceed the total. *)
Theorem today_le_total (H : PyDatetime) sessions w today_sec all_sec w' :
  compute_totals sessions w = (Ok (today_sec, all_sec), w') ->
  today_sec <= all_sec.
Proof. apply compute_totals_le. Qed.

(** C2, as the code has it. For a session whose start is not after now,
    [duration_seconds] returns end-or-now minus start truncated to whole
    seconds and does not floor it: the result is not negative for a running
    session, and for a closed one exactly when the end is less than a
    second before the start. The floor is applied where the value is shown:
    [fmt_duration] treats a negative duration as zero. *)
Theorem duration_seconds_unfloored (H : PyDatetime) s iv w :
  parses_to s iv ->
  instant (fst iv) <= instant (datetime_of (clock w (ticks w))) ->
  let now := datetime_of (clock w (ticks w)) in
  let d := int_total_seconds (instant (Spec.end_or now (snd iv)) - instant (fst iv)) in
  fst (duration_seconds s w) = Ok d
  /\ (snd iv = None -> 0 <= d)
  /\ (forall e, snd iv = Some e ->
        (0 <= d <-> instant (fst iv) < instant e + US_PER_SECOND))
  /\ fmt_duration d = fmt_duration (Z.max 0 d).
Proof.
  intros Hp Hnow now d. split; [apply duration_seconds_value, Hp|].
  split; [|split; [|apply fmt_duration_clamps]].
  - intros Hn. subst d. rewrite Hn. simpl. apply int_total_seconds_nonneg. subst now. lia.
  - intros e He. subst d. rewrite He. simpl.
    rewrite int_total_seconds_sign. lia.
Qed.

Lemma mutated_running (H : PyDatetime) sys idx :
  running_session_index (sessions (self sys)) = Some idx ->
  sessions (self (mutated sys))
  = alter (set_end_iso
             (JString (dt_to_iso (datetime_of (clock (world sys) (ticks (world sys)))))))
      idx (sessions (self sys)).
Proof. intros E. unfold mutated. now rewrite E. Qed.

Lemma mutated_idle (H : PyDatetime) sys :
  running_session_index (sessions (self sys)) = None ->
  sessions (self (mutated sys))
  = (sessions (self sys)
     ++ [mk_Session
           (JString (dt_to_iso (datetime_of (clock (world sys) (ticks (world sys))))))
           JNull (JString (strip (note_var (self sys))))])%list.
Proof. intros E. unfold mutated. now rewrite E. Qed.

Lemma running_index_exists (H : PyDatetime) ss :
  (1 <= count_running ss)%nat -> exists idx, running_session_index ss = Some idx.
Proof.
  intros Hc. destruct (running_session_index ss) as [idx|] eqn:E; [eauto|].
  rewrite (count_running_none ss (running_session_index_None ss E)) in Hc. lia.
Qed.

(** What [toggle] does to the list when it finds a running session. *)
Lemma toggle_stop_effect (H : PyDatetime) sys idx :
  running_session_index (sessions (self sys)) = Some idx ->
  let before := sessions (self sys) in
  let after := sessions (self (snd (toggle sys))) in
  let now := datetime_of (clock (world sys) (ticks (world sys))) in
  after = alter (set_end_iso (JString (dt_to_iso now))) idx before
  /\ length after = length before
  /\ (forall j, j <> idx -> after !! j = before !! j)
  /\ Datatypes.S (count_running after) = count_running before.
Proof.
  intros E before after now. subst after. rewrite toggle_sessions, (mutated_running H sys idx E).
  fold before now. split; [reflexivity|]. split; [apply length_alter|].
  split; [intros j Hj; apply list_lookup_alter_ne; congruence|].
  destruct (running_session_index_Some before idx E) as ((s & Hs & Hr) & _).
  apply (count_running_alter _ before idx s Hs Hr). reflexivity.
Qed.

Lemma toggle_start_effect (H : PyDatetime) sys :
  running_session_index (sessions (self sys)) = None ->
  sessions (self (snd (toggle sys)))
  = (sessions (self sys)
     ++ [mk_Session
           (JString (dt_to_iso (datetime_of (clock (world sys) (ticks (world sys))))))
           JNull (JString (strip (note_var (self sys))))])%list.
Proof. intros E. now rewrite toggle_sessions, (mutated_idle H sys E). Qed.

(** C3, as the code has it. With a session running, [toggle] starts no
    second session and raises no AlreadyRunning: it stops the running
    session of the greatest index by giving it an end. The list keeps its
    length, every other session stays as it was, and one session less is
    running. *)
Theorem toggle_while_running_stops (H : PyDatetime) sys idx :
  running_session_index (sessions (self sys)) = Some idx ->
  let before := sessions (self sys) in
  let after := sessions (self (snd (toggle sys))) in
  let now := datetime_of (clock (world sys) (ticks (world sys))) in
  after = alter (set_end_iso (JString (dt_to_iso now))) idx before
  /\ length after = length before
  /\ (forall j, j <> idx -> after !! j = before !! j)
  /\ Datatypes.S (count_running after) = count_running before.
Proof. apply toggle_stop_effect. Qed.

(** C10. When more than one session is running, the lookup returns the
    greatest index of a running session, and [toggle] closes that session
    only: every other session, the earlier running ones among them, is left
    as it was. *)
Theorem toggle_closes_latest_running (H : PyDatetime) sys :
  let before := sessions (self sys) in
  let after := sessions (self (snd (toggle sys))) in
  let now := datetime_of (clock (world sys) (ticks (world sys))) in
  (2 <= count_running before)%nat ->
  exists idx s,
    running_session_index before = Some idx
    /\ before !! idx = Some s /\ is_running s = true
    /\ (forall j s', (idx < j)%nat -> before !! j = Some s' -> is_running s' = false)
    /\ after !! idx = Some (set_end_iso (JString (dt_to_iso now)) s)
    /\ is_running (set_end_iso (JString (dt_to_iso now)) s) = false
    /\ (forall j, j <> idx -> after !! j = before !! j)
    /\ (1 <= count_running after)%nat.
Proof.
  intros before after now Hc.
  destruct (running_index_exists H before) as [idx E]; [lia|].
  destruct (running_session_index_Some before idx E) as ((s & Hs & Hr) & Hlast).
  destruct (toggle_stop_effect H sys idx E) as (Hafter & _ & Hother & Hcount).
  fold before after now in Hafter, Hother, Hcount.
  exists idx, s. repeat split; auto.
  - rewrite Hafter, list_lookup_alter_eq, Hs. reflexivity.
  - lia.
Qed.

(** C4, as the code has it. With no session running, [toggle] raises no
    NotRunning: it starts a session, appending one that has the reading of
    the clock as start, no end and the stripped note; and when no I/O call
    fails the data file is rewritten, by a rename, with the new
    collection. *)
Theorem toggle_while_idle_starts (H : PyDatetime) sys :
  running_session_index (sessions (self sys)) = None ->
  let before := sessions (self sys) in
  let after := sessions (self (snd (toggle sys))) in
  let now := datetime_of (clock (world sys) (ticks (world sys))) in
  after = (before ++ [mk_Session (JString (dt_to_iso now)) JNull
                         (JString (strip (note_var (self sys))))])%list
  /\ (quiet (world sys) ->
      data_file (world (snd (toggle sys))) = Some (Doc (store_of after))
      /\ hd_error (oplog (world (snd (toggle sys))))
         = Some (OpReplace TMP_FILE DATA_FILE)).
Proof.
  intros E before after now. split.
  - apply (toggle_start_effect H sys E).
  - intros Hq. apply (toggle_saves sys Hq).
Qed.

(** *** Every state the program reaches is lawful *)

(** Splits the world into its fields and the outcomes to come, four deep:
    no function of the storage layer makes more I/O calls. *)
Ltac case_io w :=
  let d := fresh "d" in let f := fresh "f" in let fs := fresh "fs" in
  destruct w as [d f ? ? ? fs ?];
  destruct fs as [|[| |] [|[| |] [|[| |] [|[| |] fs]]]];
  destruct d; destruct f as [?|].

Lemma save_sessions_data_file ss w :
  data_file (snd (save_sessions ss w)) = data_file w
  \/ data_file (snd (save_sessions ss w)) = Some (Doc (store_of ss))
  \/ (data_file w = None
      /\ (data_file (snd (save_sessions ss w)) = Some (Doc empty_store)
          \/ data_file (snd (save_sessions ss w)) = Some Garbled)).
Proof. case_io w; cbn; auto. Qed.

Lemma store_of_nil : empty_store = store_of [].
Proof. reflexivity. Qed.

Lemma lawful_world_empty_store w :
  data_file w = Some (Doc empty_store) -> lawful_world w.
Proof.
  intros E. unfold lawful_world. rewrite E. exists []. split; [reflexivity|].
  unfold count_running. simpl. lia.
Qed.

Lemma lawful_world_ext w w' :
  data_file w' = data_file w -> lawful_world w -> lawful_world w'.
Proof. unfold lawful_world. now intros ->. Qed.

Lemma save_sessions_lawful ss w :
  (count_running ss <= 1)%nat -> lawful_world w ->
  lawful_world (snd (save_sessions ss w)).
Proof.
  intros Hone Hw.
  destruct (save_sessions_data_file ss w) as [E|[E|[_ [E|E]]]].
  - now apply (lawful_world_ext w).
  - unfold lawful_world. rewrite E. eauto.
  - now apply lawful_world_empty_store.
  - unfold lawful_world. now rewrite E.
Qed.

Lemma ensure_storage_data_file w :
  data_file (snd (ensure_storage w)) = data_file w
  \/ (data_file w = None
      /\ (data_file (snd (ensure_storage w)) = Some (Doc empty_store)
          \/ data_file (snd (ensure_storage w)) = Some Garbled)).
Proof. case_io w; cbn; auto. Qed.

Lemma ensure_storage_ok w w' :
  ensure_storage w = (Ok tt, w') ->
  data_file w' = Some (match data_file w with Some c => c | None => Doc empty_store end).
Proof. case_io w; cbn; intros E; inversion E; subst; reflexivity. Qed.

Lemma read_text_ok p w c w' :
  read_text p w = (Ok c, w') -> file p w = Some c /\ data_file w' = data_file w.
Proof.
  unfold read_text, bind. rewrite next_fault_eq.
  replace (file p (set_faults (tl (faults w)) w)) with (file p w) by (now destruct p).
  destruct (hd NoFault (faults w)), (file p w) as [[]|];
    intros E; inversion E; subst; auto.
Qed.

Lemma read_text_data_file p : preserves data_file (read_text p).
Proof.
  intros w. unfold read_text, bind. rewrite next_fault_eq.
  destruct (hd NoFault (faults w)), (file p (set_faults (tl (faults w)) w)) as [[]|];
    reflexivity.
Qed.

Lemma load_sessions_data_file w :
  data_file (snd (load_sessions w)) = data_file (snd (ensure_storage w)).
Proof.
  unfold load_sessions. apply (preserves_after data_file). intros _.
  apply preserves_bind; [apply read_text_data_file|]. intros c. preserves_tac.
Qed.

Lemma load_sessions_world_lawful w :
  lawful_world w -> lawful_world (snd (load_sessions w)).
Proof.
  intros Hw. destruct (ensure_storage_data_file w) as [E|[_ [E|E]]];
    rewrite <- load_sessions_data_file in E.
  - now apply (lawful_world_ext w).
  - now apply lawful_world_empty_store.
  - unfold lawful_world. now rewrite E.
Qed.

(** The sessions that a launch loads from a lawful world. *)
Lemma load_sessions_lawful w ss w' :
  load_sessions w = (Ok ss, w') -> lawful_world w ->
  (count_running ss <= 1)%nat /\ (data_file w = None -> ss = []).
Proof.
  unfold load_sessions. intros E Hw.
  apply bind_inv_ok in E as ([] & w1 & E1 & E).
  apply bind_inv_ok in E as (c & w2 & E2 & E).
  apply bind_inv_ok in E as (raw & w3 & E3 & E).
  apply lift_result_inv in E3 as [E3 ->].
  apply ensure_storage_ok in E1. apply read_text_ok in E2 as [E2 _].
  simpl in E2. rewrite E2 in E1. injection E1 as E1.
  destruct c as [j| |]; [|discriminate|discriminate]. simpl in E3. injection E3 as ->.
  assert (Hj : exists ss0, raw = store_of ss0 /\ (count_running ss0 <= 1)%nat
                           /\ (data_file w = None -> ss0 = [])).
  { unfold lawful_world in Hw. destruct (data_file w) as [c0|].
    - subst c0. destruct Hw as (ss0 & -> & Hone). exists ss0. repeat split; auto.
      discriminate.
    - injection E1 as ->. exists []. repeat split; auto. }
  destruct Hj as (ss0 & -> & Hone & Hnil).
  unfold store_of, bind, lift_result in E. simpl in E.
  rewrite load_items_asdict in E. injection E as -> _. auto.
Qed.

Lemma refresh_data_file (H : PyDatetime) :
  preserves (fun s => data_file (world s)) refresh.
Proof.
  intros s. pose proof (refresh_disk s) as E. unfold disk in E. now inversion E.
Qed.

Lemma in_world_snd {A} (m : M World A) sys :
  snd (in_world m sys) = mk_Sys (self sys) (snd (m (world sys))).
Proof. unfold in_world. now destruct (m (world sys)). Qed.

(** The save at the end of a mutating call, followed by [refresh]. *)
Lemma save_refresh (H : PyDatetime) ss sys :
  let sys' := snd (bind (in_world (save_sessions ss)) (fun _ => refresh) sys) in
  sessions (self sys') = sessions (self sys)
  /\ data_file (world sys') = data_file (snd (save_sessions ss (world sys))).
Proof.
  split.
  - rewrite (preserves_after (fun s => sessions (self s)))
      by (intros _; apply refresh_sessions).
    now rewrite in_world_snd.
  - rewrite (preserves_after (fun s => data_file (world s)))
      by (intros _; apply refresh_data_file).
    now rewrite in_world_snd.
Qed.

Lemma mutated_world (H : PyDatetime) sys :
  data_file (world (mutated sys)) = data_file (world sys).
Proof. unfold mutated. now destruct (running_session_index (sessions (self sys))). Qed.

Lemma delete_selected_eq (H : PyDatetime) i sel sys :
  delete_selected (i :: sel) true sys
  = bind (in_world (save_sessions
                      (delete_indices (sorted_reverse (i :: sel)) (sessions (self sys)))))
      (fun _ => refresh)
      (mk_Sys (set_sessions
                 (delete_indices (sorted_reverse (i :: sel)) (sessions (self sys)))
                 (self sys))
              (world sys)).
Proof. reflexivity. Qed.

Lemma quit_app_eq (H : PyDatetime) sys :
  quit_app sys
  = match running_session_index (sessions (self sys)) with
    | Some _ =>
        swallow (in_world (save_sessions (sessions (self (mutated sys))))) (mutated sys)
    | None => (Ok tt, sys)
    end.
Proof.
  unfold quit_app, mutated. unfold bind at 1. unfold gets at 1.
  destruct (running_session_index (sessions (self sys))); reflexivity.
Qed.

Lemma tick_eq (H : PyDatetime) sys :
  tick sys
  = match running_session_index (sessions (self sys)) with
    | Some _ => refresh sys
    | None => (Ok tt, sys)
    end.
Proof.
  unfold tick. unfold bind at 1. unfold gets at 1.
  destruct (running_session_index (sessions (self sys))); reflexivity.
Qed.

(** One call keeps at most one session running, and changes the length of
    the list as its kind allows. *)
Lemma run_op_step (H : PyDatetime) o sys :
  (count_running (sessions (self sys)) <= 1)%nat ->
  lawful_step (sys, o, snd (run_op o sys)).
Proof.
  intros Hone. unfold lawful_step. cbn [fst snd].
  destruct o as [|text|sel confirmed| |]; cbn [run_op].
  - destruct (running_session_index (sessions (self sys))) as [idx|] eqn:E.
    + destruct (toggle_stop_effect H sys idx E) as (_ & Hlen & _ & Hcount).
      split; [lia|exact Hlen].
    + rewrite (toggle_start_effect H sys E).
      rewrite count_running_app, length_app.
      rewrite (count_running_none _ (running_session_index_None _ E)).
      split; [unfold count_running; simpl; lia|simpl; lia].
  - split; [exact Hone|reflexivity].
  - rewrite delete_selected_sessions.
    destruct (delete_indices_le (sorted_reverse sel) (sessions (self sys))) as [Hl Hc].
    destruct sel; [split; [exact Hone|lia]|].
    destruct confirmed; split; lia.
  - rewrite tick_eq.
    destruct (running_session_index (sessions (self sys))); [|now split].
    rewrite refresh_sessions. now split.
  - rewrite quit_app_eq.
    destruct (running_session_index (sessions (self sys))) as [idx|] eqn:E; [|now split].
    unfold swallow. cbn [snd]. rewrite in_world_snd. cbn [self].
    rewrite (mutated_running H sys idx E).
    destruct (running_session_index_Some _ idx E) as ((s0 & Hs & Hr) & _).
    pose proof (count_running_alter
                  (set_end_iso (JString (dt_to_iso
                     (datetime_of (clock (world sys) (ticks (world sys)))))))
                  _ idx s0 Hs Hr eq_refl) as Hcount.
    split; [lia|apply length_alter].
Qed.

(** One call keeps the data file lawful. *)
Lemma run_op_world (H : PyDatetime) o sys :
  (count_running (sessions (self sys)) <= 1)%nat ->
  lawful_world (world sys) ->
  lawful_world (world (snd (run_op o sys))).
Proof.
  intros Hone Hw. pose proof (run_op_step H o sys Hone) as [Hafter _].
  cbn [fst snd] in Hafter.
  assert (Hm : lawful_world (world (mutated sys)))
    by (apply (lawful_world_ext (world sys)); [apply mutated_world|exact Hw]).
  destruct o as [|text|sel confirmed| |]; cbn [run_op] in *.
  - rewrite toggle_sessions in Hafter. rewrite toggle_eq.
    destruct (save_refresh H (sessions (self (mutated sys))) (mutated sys)) as [_ Hd].
    eapply lawful_world_ext; [exact Hd|]. now apply save_sessions_lawful.
  - exact Hw.
  - destruct sel as [|i sel]; [exact Hw|]. destruct confirmed; [|exact Hw].
    rewrite delete_selected_sessions in Hafter. rewrite delete_selected_eq.
    match goal with
    | |- context [bind (in_world (save_sessions ?ss)) _ ?s0] =>
        destruct (save_refresh H ss s0) as [_ Hd]
    end.
    eapply lawful_world_ext; [exact Hd|]. now apply save_sessions_lawful.
  - rewrite tick_eq.
    destruct (running_session_index (sessions (self sys))); [|exact Hw].
    apply (lawful_world_ext (world sys)); [apply refresh_data_file|exact Hw].
  - rewrite quit_app_eq in *.
    destruct (running_session_index (sessions (self sys))); [|exact Hw].
    unfold swallow in *. cbn [snd] in *. rewrite in_world_snd in *. cbn [self world] in *.
    now apply save_sessions_lawful.
Qed.

(** A launch from a lawful world leaves a lawful world, and if it gives
    an application object, that one has at most one running session. *)
Lemma init_lawful (H : PyDatetime) w :
  lawful_world w -> lawful_machine (step Launch (Off w)).
Proof.
  intros Hw. cbn [step]. unfold init.
  pose proof (load_sessions_world_lawful w Hw) as Hw1.
  destruct (load_sessions w) as [[ss|e] w1] eqn:El; cbn [snd] in Hw1; [|exact Hw1].
  destruct (load_sessions_lawful w ss w1 El Hw) as [Hone _].
  pose proof (refresh_sessions (mk_Sys (new_app ss) w1)) as Hs.
  pose proof (refresh_data_file H (mk_Sys (new_app ss) w1)) as Hd.
  destruct (refresh (mk_Sys (new_app ss) w1)) as [[[]|e] sys]; cbn [snd self world] in *.
  - cbn [lawful_machine self world]. split; [now rewrite Hs|].
    now apply (lawful_world_ext w1).
  - now apply (lawful_world_ext w1).
Qed.

Lemma step_lawful (H : PyDatetime) e m :
  lawful_machine m -> lawful_machine (step e m).
Proof.
  intros Hm. destruct e as [|o|], m as [w|sys]; try exact Hm.
  - now apply init_lawful.
  - destruct Hm as [Hone Hw]. cbn [step lawful_machine]. split.
    + apply (run_op_step H o sys Hone).
    + now apply run_op_world.
  - apply Hm.
Qed.

Lemma lawful_machine_point (H : PyDatetime) m : lawful_machine m -> lawful_point m.
Proof.
  destruct m as [w|sys]; cbn [lawful_machine lawful_point]; [trivial|].
  intros [Hone _]. split; [exact Hone|].
  intros o. now apply run_op_step.
Qed.

Lemma history_lawful (H : PyDatetime) es m :
  lawful_machine m -> Forall lawful_point (history es m).
Proof.
  revert m. induction es as [|e es IH]; intros m Hm; cbn [history]; constructor.
  - apply lawful_machine_point, step_lawful, Hm.
  - apply IH, step_lawful, Hm.
Qed.

(** C5. From the first launch, when no data file exists yet, through
    every sequence of launches, calls (toggle, typing a note, deletion,
    the timer, quit) and exits, with any clock and any I/O faults: at each
    point where the program runs at most one session has no end, a toggle
    that starts makes the list one longer, a toggle that stops keeps its
    length, and only a deletion can make it shorter. The same holds from
    any state with at most one running session in memory and in the data
    file. *)
Theorem single_running_invariant (H : PyDatetime) :
  (forall es w, data_file w = None -> Forall lawful_point (history es (Off w)))
  /\ (forall es m, lawful_machine m -> Forall lawful_point (history es m)).
Proof.
  split.
  - intros es w Hw. apply history_lawful. cbn [lawful_machine]. unfold lawful_world.
    now rewrite Hw.
  - intros es m. apply history_lawful.
Qed.

(** C7, as the code has it. [save_sessions] writes the whole collection to
    the temporary file and then renames it over the data file; when it
    raises, a data file that was there holds what it held, and at most the
    temporary file was written. Without faults it returns. It leaves the
    list in memory alone, but [toggle] has changed that list before it
    saves and nothing undoes the change when the save fails. *)
Theorem save_sessions_atomic_no_rollback (H : PyDatetime) :
  (forall ss w c,
     app_dir w = true -> data_file w = Some c ->
     atomic_outcome ss w c (save_sessions ss w))
  /\ (forall ss w, quiet w -> fst (save_sessions ss w) = Ok tt)
  /\ (forall sys,
        let now := datetime_of (clock (world sys) (ticks (world sys))) in
        sessions (self (snd (toggle sys)))
        = match running_session_index (sessions (self sys)) with
          | None =>
              (sessions (self sys)
               ++ [mk_Session (JString (dt_to_iso now)) JNull
                     (JString (strip (note_var (self sys))))])%list
          | Some idx =>
              alter (set_end_iso (JString (dt_to_iso now))) idx (sessions (self sys))
          end).
Proof.
  split; [intros ss w c; apply save_sessions_outcome|].
  split.
  - intros ss w Hq. destruct (save_sessions_quiet ss w Hq) as (w' & E & _). now rewrite E.
  - intros sys now. rewrite toggle_sessions. unfold mutated.
    now destruct (running_session_index (sessions (self sys))).
Qed.

(** A loop raises when one of its turns raises whatever it is given. *)
Lemma foldM_raises {S A B} (body : A -> B -> M S A) xs x :
  In x xs ->
  (forall acc s, is_ok (fst (body acc x s)) = false) ->
  forall acc s, is_ok (fst (foldM body acc xs s)) = false.
Proof.
  intros Hin Hx. induction xs as [|y xs IH]; [destruct Hin|].
  intros acc s. cbn [foldM]. unfold bind.
  destruct (body acc y s) as [[acc'|e] s1] eqn:E; [|reflexivity].
  destruct Hin as [->|Hin].
  - specialize (Hx acc s). rewrite E in Hx. discriminate.
  - apply IH, Hin.
Qed.

(** A naive start cannot be compared with the aware start of today. *)
Lemma totals_step_naive (H : PyDatetime) today_start tomorrow_start acc s d w :
  start_dt s = Ok d -> utcoffset d = None -> aware today_start = true ->
  is_ok (fst (totals_step today_start tomorrow_start acc s w)) = false.
Proof.
  intros Hs Hd Hts. destruct acc as [t a]. unfold totals_step, bind, lift_result.
  rewrite Hs. destruct (end_or_now s w) as [[e|x] w1]; [|reflexivity].
  destruct (dt_sub e d) as [td|x]; [|reflexivity].
  unfold dt_max, dt_gt, dt_sub. rewrite Hd.
  unfold aware in Hts. destruct (utcoffset today_start); [reflexivity|discriminate].
Qed.

Lemma compute_totals_naive (H : PyDatetime) ss w s d :
  In s ss -> start_dt s = Ok d -> utcoffset d = None ->
  is_ok (fst (compute_totals ss w)) = false.
Proof.
  intros Hin Hs Hd. unfold compute_totals, start_of_today_local.
  unfold bind at 1. unfold bind at 1. unfold now_local, ret at 1.
  unfold bind at 1. unfold lift_result at 1.
  destruct (dt_add _ _) as [tm|x]; [|reflexivity].
  apply (foldM_raises _ ss s Hin). intros acc w0.
  now apply (totals_step_naive H _ _ acc s d w0 Hs Hd).
Qed.

(** C8, as the code has it. [load_sessions] checks no time stamp: it
    returns the stored records as they are, whatever their start holds, a
    text without UTC offset included. Such a start is not coerced either:
    [compute_totals] raises on a list that holds one. *)
Theorem load_keeps_records (H : PyDatetime) :
  (forall w ss,
     quiet w -> data_file w = Some (Doc (store_of ss)) ->
     fst (load_sessions w) = Ok ss)
  /\ (forall ss w s d,
        In s ss -> start_dt s = Ok d -> utcoffset d = None ->
        is_ok (fst (compute_totals ss w)) = false).
Proof.
  split.
  - intros w ss Hq Hf. destruct (load_sessions_quiet w _ Hq Hf) as (w' & -> & _).
    unfold store_of. simpl json_loads.
    unfold bind, lift_result. simpl. now rewrite load_items_asdict.
  - intros ss w s d. apply compute_totals_naive.
Qed.

(** C9. When the data file holds a JSON object without the key
    "sessions" and no I/O call fails, [load_sessions] returns the empty
    list, raises nothing and leaves the file as it is. *)
Theorem load_without_sessions_key (H : PyDatetime) w members :
  quiet w ->
  data_file w = Some (Doc (JObject members)) ->
  dict_get "sessions" members = None ->
  fst (load_sessions w) = Ok []
  /\ data_file (snd (load_sessions w)) = data_file w.
Proof.
  intros Hq Hf Hk. destruct (load_sessions_quiet w _ Hq Hf) as (w' & -> & Hf').
  unfold bind, lift_result. simpl. rewrite Hk. simpl. now rewrite Hf, Hf'.
Qed.

(** ** The code at the example inputs *)

Example skewed_duration :
  @parses_to (FixedZone EST) skewed_session skewed_interval
  /\ instant (fst skewed_interval) <= instant (datetime_of noon)
  /\ fst (@duration_seconds (FixedZone EST) skewed_session (world_at noon [])) = Ok (-3600).
Proof.
  split; [repeat split; intros e [= <-]; reflexivity|].
  split; [vm_compute; discriminate|vm_compute; reflexivity].
Qed.

Example toggle_on_running :
  running_session_index (sessions (self running_sys)) = Some 0%nat
  /\ fst (@toggle (FixedZone EST) running_sys) = Ok tt
  /\ sessions (self (snd (@toggle (FixedZone EST) running_sys)))
     = [mk_Session (JString "2024-01-02T09:00:00-05:00")
                   (JString "2024-01-02T12:00:00-05:00") (JString EmptyString)].
Proof. repeat split; vm_compute; reflexivity. Qed.

Example toggle_on_idle :
  running_session_index (sessions (self fresh_sys)) = None
  /\ fst (@toggle (FixedZone EST) fresh_sys) = Ok tt
  /\ data_file (world fresh_sys) = Some (Doc (store_of []))
  /\ data_file (world (snd (@toggle (FixedZone EST) fresh_sys)))
     = Some (Doc (store_of [mk_Session (JString "2024-01-02T12:00:00-05:00") JNull
                                       (JString EmptyString)]))
  /\ oplog (world (snd (@toggle (FixedZone EST) fresh_sys)))
     = [OpReplace TMP_FILE DATA_FILE;
        OpWrite TMP_FILE
          (Doc (store_of [mk_Session (JString "2024-01-02T12:00:00-05:00") JNull
                                     (JString EmptyString)]))].
Proof. repeat split; vm_compute; reflexivity. Qed.

(** The save of a start fails: the data file is as it was, but the list in
    memory has the new session, and the same call made again stops that
    session instead of starting one. *)
Example toggle_with_failing_save :
  let failed := @toggle (FixedZone EST) failing_sys in
  let again := @toggle (FixedZone EST) (snd failed) in
  fst failed = Raise OSError
  /\ data_file (world (snd failed)) = data_file (world failing_sys)
  /\ tmp_file (world (snd failed)) = Some Garbled
  /\ sessions (self failing_sys) = []
  /\ sessions (self (snd failed))
     = [mk_Session (JString "2024-01-02T12:00:00-05:00") JNull (JString EmptyString)]
  /\ fst again = Ok tt
  /\ sessions (self (snd again))
     = [mk_Session (JString "2024-01-02T12:00:00-05:00")
                   (JString "2024-01-02T12:00:00-05:00") (JString EmptyString)].
Proof. repeat split; vm_compute; reflexivity. Qed.

(** The day of use, seen from outside: the numbers of sessions and of
    running sessions after each event. *)
Example day_of_use_observed :
  map observe (@history (FixedZone EST) day_of_use (Off first_world))
  = [Some (0, 0); Some (1, 1); Some (1, 1); Some (1, 0); Some (2, 1); None;
     Some (2, 1); Some (1, 1); Some (1, 0)]%nat.
Proof. vm_compute. reflexivity. Qed.

Example load_naive_record :
  fst (load_sessions naive_world)
  = Ok [mk_Session (JString "2024-01-01T23:30:00") JNull (JString EmptyString)]
  /\ Calendar.parse "2024-01-01T23:30:00"
     = Some (mk_datetime (Calendar.ymd2ord 2024 1 1) 23 30 0 0 None)
  /\ fst (@compute_totals (FixedZone EST)
            [mk_Session (JString "2024-01-01T23:30:00") JNull (JString EmptyString)]
            (world_at noon []))
     = Raise TypeError.
Proof. repeat split; vm_compute; reflexivity. Qed.

(** ** Where the code departs from the specification *)

(** C2 as stated fails: a session that ends an hour before it starts has
    the duration -3600. *)
Lemma duration_not_floored : ~ duration_floor_claim.
Proof.
  intros C. destruct skewed_duration as (Hp & Hnow & Hd).
  destruct (C (FixedZone EST) skewed_session skewed_interval (world_at noon []) Hp Hnow)
    as (d & E & Hpos).
  rewrite Hd in E. inversion E; subst. lia.
Qed.

(** C3 as stated fails: with a session running, [toggle] returns and the
    list has changed. *)
Lemma start_while_running_accepted : ~ start_rejected_claim.
Proof.
  intros C. destruct toggle_on_running as (Hi & Hok & _).
  destruct (C (FixedZone EST) running_sys) as [Hfail _].
  - rewrite Hi. discriminate.
  - rewrite Hok in Hfail. discriminate.
Qed.

(** C4 as stated fails: with no session running, [toggle] returns and the
    data file has been rewritten. *)
Lemma stop_while_idle_accepted : ~ stop_rejected_claim.
Proof.
  intros C. destruct toggle_on_idle as (Hi & Hok & _).
  destruct (C (FixedZone EST) fresh_sys Hi) as [Hfail _].
  rewrite Hok in Hfail. discriminate.
Qed.

(** C7 as stated fails: after the failed save the list in memory is not
    the one before the call. *)
Lemma failed_save_keeps_mutation : ~ save_failure_rollback_claim.
Proof.
  intros C. destruct toggle_with_failing_save as (Hfail & _ & _ & Hbefore & Hafter & _).
  destruct (C (FixedZone EST) failing_sys (Doc empty_store) eq_refl eq_refl Hfail)
    as [_ Hsame].
  rewrite Hafter, Hbefore in Hsame. discriminate.
Qed.

(** C8 as stated fails: the record whose start has no offset is loaded. *)
Lemma naive_start_loaded : ~ naive_start_rejected_claim.
Proof.
  intros C. destruct load_naive_record as (Hload & Hparse & _).
  pose proof (C (FixedZone EST) naive_world [naive_record] "2024-01-01T23:30:00"
                JNull (JString EmptyString) _ eq_refl (or_introl eq_refl) Hparse eq_refl) as Hfail.
  rewrite Hload in Hfail. discriminate.
Qed.

(** ** The theorems at the example inputs *)

Lemma today_seconds_is_overlap_sum_witness :
  (forall n, clock (world_at noon []) n = noon)
  /\ has_tomorrow noon
  /\ Forall2 (@parses_to (FixedZone EST)) [midnight_session] [midnight_interval]
  /\ fst (@compute_totals (FixedZone EST) [midnight_session] (world_at noon []))
     = Ok (@Spec.today_seconds (FixedZone EST) [midnight_interval] (datetime_of noon),
           @Spec.total_seconds (FixedZone EST) [midnight_interval] (datetime_of noon)).
Proof.
  assert (Hc : forall n, clock (world_at noon []) n = noon) by reflexivity.
  assert (Hr : has_tomorrow noon).
  { unfold has_tomorrow. vm_compute. split; [discriminate|reflexivity]. }
  assert (Hp : Forall2 (@parses_to (FixedZone EST)) [midnight_session] [midnight_interval]).
  { constructor; [|constructor]. repeat split. intros e [= <-]. reflexivity. }
  exact (conj Hc (conj Hr (conj Hp
           (proj1 today_seconds_is_overlap_sum (FixedZone EST) _ _ _ _ Hc Hr Hp)))).
Defined.

Lemma today_le_total_witness :
  @compute_totals (FixedZone EST) [midnight_session] (world_at noon [])
  = (Ok (1800, 3600), set_ticks 1 (world_at noon []))
  /\ 1800 <= 3600.
Proof.
  assert (E : @compute_totals (FixedZone EST) [midnight_session] (world_at noon [])
              = (Ok (1800, 3600), set_ticks 1 (world_at noon [])))
    by (vm_compute; reflexivity).
  exact (conj E (today_le_total (FixedZone EST) _ _ _ _ _ E)).
Defined.

Lemma duration_seconds_unfloored_witness :
  @parses_to (FixedZone EST) skewed_session skewed_interval
  /\ instant (fst skewed_interval) <= instant (datetime_of noon)
  /\ fst (@duration_seconds (FixedZone EST) skewed_session (world_at noon []))
     = Ok (@int_total_seconds (FixedZone EST)
             (instant (Spec.end_or (datetime_of noon) (snd skewed_interval))
              - instant (fst skewed_interval))).
Proof.
  assert (Hp : @parses_to (FixedZone EST) skewed_session skewed_interval).
  { repeat split. intros e [= <-]. reflexivity. }
  assert (Hn : instant (fst skewed_interval) <= instant (datetime_of noon))
    by (vm_compute; discriminate).
  exact (conj Hp (conj Hn
           (proj1 (duration_seconds_unfloored (FixedZone EST) skewed_session
                     skewed_interval (world_at noon []) Hp Hn)))).
Defined.

Lemma toggle_while_running_stops_witness :
  running_session_index (sessions (self running_sys)) = Some 0%nat
  /\ length (sessions (self (snd (@toggle (FixedZone EST) running_sys))))
     = length (sessions (self running_sys)).
Proof.
  assert (E : running_session_index (sessions (self running_sys)) = Some 0%nat)
    by reflexivity.
  exact (conj E (proj1 (proj2
           (toggle_while_running_stops (FixedZone EST) running_sys 0%nat E)))).
Defined.

Lemma toggle_while_idle_starts_witness :
  running_session_index (sessions (self fresh_sys)) = None
  /\ quiet (world fresh_sys)
  /\ data_file (world (snd (@toggle (FixedZone EST) fresh_sys)))
     = Some (Doc (store_of (sessions (self (snd (@toggle (FixedZone EST) fresh_sys)))))).
Proof.
  assert (E : running_session_index (sessions (self fresh_sys)) = None) by reflexivity.
  assert (Hq : quiet (world fresh_sys)) by constructor.
  exact (conj E (conj Hq
           (proj1 (proj2 (toggle_while_idle_starts (FixedZone EST) fresh_sys E) Hq)))).
Defined.

Lemma single_running_invariant_witness :
  data_file first_world = None
  /\ Forall (@lawful_point (FixedZone EST))
       (@history (FixedZone EST) day_of_use (Off first_world)).
Proof.
  exact (conj eq_refl
           (proj1 (single_running_invariant (FixedZone EST)) day_of_use first_world
              eq_refl)).
Defined.

Lemma save_sessions_atomic_no_rollback_witness :
  app_dir (world failing_sys) = true
  /\ data_file (world failing_sys) = Some (Doc empty_store)
  /\ atomic_outcome [running_session] (world failing_sys) (Doc empty_store)
       (save_sessions [running_session] (world failing_sys)).
Proof.
  exact (conj eq_refl (conj eq_refl
           (proj1 (save_sessions_atomic_no_rollback (FixedZone EST))
              [running_session] (world failing_sys) (Doc empty_store) eq_refl eq_refl))).
Defined.

Lemma load_keeps_records_witness :
  quiet naive_world
  /\ data_file naive_world
     = Some (Doc (store_of [mk_Session (JString "2024-01-01T23:30:00") JNull (JString EmptyString)]))
  /\ fst (load_sessions naive_world)
     = Ok [mk_Session (JString "2024-01-01T23:30:00") JNull (JString EmptyString)].
Proof.
  assert (Hq : quiet naive_world) by constructor.
  exact (conj Hq (conj eq_refl
           (proj1 (load_keeps_records (FixedZone EST)) naive_world
              [mk_Session (JString "2024-01-01T23:30:00") JNull (JString EmptyString)]
              Hq eq_refl))).
Defined.

Lemma load_without_sessions_key_witness :
  quiet keyless_world
  /\ data_file keyless_world = Some (Doc (JObject [("version", JInt 1)]))
  /\ dict_get "sessions" [("version", JInt 1)] = None
  /\ fst (load_sessions keyless_world) = Ok []
  /\ data_file (snd (load_sessions keyless_world)) = data_file keyless_world.
Proof.
  assert (Hq : quiet keyless_world) by constructor.
  exact (conj Hq (conj eq_refl (conj eq_refl
           (load_without_sessions_key (FixedZone EST) keyless_world
              [("version", JInt 1)] Hq eq_refl eq_refl)))).
Defined.

Lemma toggle_closes_latest_running_witness :
  (2 <= count_running (sessions (self two_running_sys)))%nat
  /\ exists idx s,
       running_session_index (sessions (self two_running_sys)) = Some idx
       /\ sessions (self two_running_sys) !! idx = Some s
       /\ is_running s = true.
Proof.
  assert (Htwo : (2 <= count_running (sessions (self two_running_sys)))%nat)
    by (vm_compute; lia).
  split; [exact Htwo|].
  destruct (toggle_closes_latest_running (FixedZone EST) two_running_sys Htwo)
    as (idx & s & Hi & Hs & Hr & _).
  exists idx, s. auto.
Defined.

(** ** Further properties of the code *)

(** *** The running session lookup *)

(** X1. [running_session_index] returns [None] exactly when no session is
    running, and otherwise the index, within the list, of a running
    session after which no session is running. *)
Theorem running_session_index_complete ss :
  match running_session_index ss with
  | None => forall s, In s ss -> is_running s = false
  | Some i =>
      (i < length ss)%nat
      /\ (exists s, ss !! i = Some s /\ is_running s = true)
      /\ (forall j s', (i < j)%nat -> ss !! j = Some s' -> is_running s' = false)
  end.
Proof.
  destruct (running_session_index ss) as [i|] eqn:E.
  - destruct (running_session_index_Some ss i E) as ((s & Hs & Hr) & Hlast).
    split; [now apply lookup_lt_Some in Hs|]. split; [eauto|exact Hlast].
  - intros s Hin. apply list_elem_of_In, list_elem_of_lookup in Hin as [j Hj].
    apply (running_session_index_None ss E j s Hj).
Qed.

(** *** Storage *)

Lemma load_store_quiet w ss :
  quiet w -> data_file w = Some (Doc (store_of ss)) -> fst (load_sessions w) = Ok ss.
Proof.
  intros Hq Hf. destruct (load_sessions_quiet w _ Hq Hf) as (w' & -> & _).
  unfold store_of. simpl json_loads.
  unfold bind, lift_result. simpl. now rewrite load_items_asdict.
Qed.

(** X2. What [save_sessions] writes, [load_sessions] reads back: when no
    I/O call fails, loading after a save returns the saved list, whatever
    the store held before and whatever the fields of the sessions are. *)
Theorem save_load_round_trip ss w :
  quiet w ->
  fst (load_sessions (snd (save_sessions ss w))) = Ok ss.
Proof.
  intros Hq. destruct (save_sessions_quiet ss w Hq) as (w' & E & Hq' & Hd & _).
  rewrite E. now apply load_store_quiet.
Qed.

Lemma save_load_round_trip_witness :
  quiet first_world
  /\ fst (load_sessions (snd (save_sessions [running_session; skewed_session] first_world)))
     = Ok [running_session; skewed_session].
Proof.
  assert (Hq : quiet first_world) by constructor.
  exact (conj Hq (save_load_round_trip [running_session; skewed_session] first_world Hq)).
Defined.

(** What is on the disk and what has been done to it. *)
Lemma read_text_frame p w :
  (app_dir (snd (read_text p w)), data_file (snd (read_text p w)),
   tmp_file (snd (read_text p w)), oplog (snd (read_text p w)))
  = (app_dir w, data_file w, tmp_file w, oplog w).
Proof.
  unfold read_text, bind. rewrite next_fault_eq.
  destruct (hd NoFault (faults w)), (file p (set_faults (tl (faults w)) w)) as [[]|];
    reflexivity.
Qed.

(** X3. [load_sessions] repairs nothing: with the directory and the data
    file in place it makes no change to the file system, whether it returns
    or raises and whatever the file holds. *)
Theorem load_sessions_writes_nothing w c :
  app_dir w = true -> data_file w = Some c ->
  data_file (snd (load_sessions w)) = Some c
  /\ tmp_file (snd (load_sessions w)) = tmp_file w
  /\ oplog (snd (load_sessions w)) = oplog w.
Proof.
  intros Hdir Hf.
  assert (Hfr : (app_dir (snd (load_sessions w)), data_file (snd (load_sessions w)),
                 tmp_file (snd (load_sessions w)), oplog (snd (load_sessions w)))
                = (app_dir w, data_file w, tmp_file w, oplog w)).
  { unfold load_sessions.
    rewrite (preserves_after
               (fun w => (app_dir w, data_file w, tmp_file w, oplog w))).
    - destruct (ensure_storage_present w c Hdir Hf) as [E|E]; now rewrite E.
    - intros _. apply preserves_bind; [intros w0; apply read_text_frame|].
      intros t. preserves_tac. }
  injection Hfr as _ Hd Ht Hl. rewrite Hd, Hf. auto.
Qed.

Lemma load_sessions_writes_nothing_witness :
  app_dir naive_world = true
  /\ data_file naive_world = Some (Doc (JObject [("sessions", JArray [naive_record])]))
  /\ oplog (snd (load_sessions naive_world)) = oplog naive_world.
Proof.
  exact (conj eq_refl (conj eq_refl
           (proj2 (proj2 (load_sessions_writes_nothing naive_world _ eq_refl eq_refl))))).
Defined.

Lemma Session_of_kwargs_raises item e :
  Session_of_kwargs item = Raise e -> e = TypeError.
Proof.
  unfold Session_of_kwargs. destruct item; try (now intros [= <-]).
  destruct (forallb _ _); [|now intros [= <-]].
  destruct (dict_get "start_iso" members), (dict_get "end_iso" members),
    (dict_get "note" members); try discriminate; now intros [= <-].
Qed.

Lemma load_items_raise (w : World) items item :
  In item items -> is_ok (Session_of_kwargs item) = false ->
  fst (mapM (fun s => lift_result (Session_of_kwargs s)) items w) = Raise TypeError.
Proof.
  intros Hin Hbad. induction items as [|x items IH]; [destruct Hin|].
  cbn [mapM]. unfold bind at 1, lift_result at 1.
  destruct (Session_of_kwargs x) as [s|e] eqn:Ex.
  - destruct Hin as [->|Hin]; [rewrite Ex in Hbad; discriminate|].
    specialize (IH Hin). unfold bind at 1.
    destruct (mapM _ items w) as [[ys|e] w1]; simpl in *; [discriminate|].
    now rewrite IH.
  - simpl. f_equal. now apply (Session_of_kwargs_raises x).
Qed.

(** X4. How [load_sessions] fails on a store it cannot read, when no I/O
    call fails: a file whose bytes are not UTF-8 raises
    [UnicodeDecodeError], from [read_text]; text that is not JSON raises
    [JSONDecodeError]; a document that is not an object raises
    [AttributeError]; and one record that does not have exactly the three
    fields, a record without its note for one, makes the whole load raise
    [TypeError], the well formed records with it. *)
Theorem load_sessions_failures w :
  quiet w ->
  (data_file w = Some Undecodable ->
   fst (read_text DATA_FILE w) = Raise UnicodeDecodeError
   /\ fst (load_sessions w) = Raise UnicodeDecodeError)
  /\ (data_file w = Some Garbled -> fst (load_sessions w) = Raise JSONDecodeError)
  /\ (forall raw, data_file w = Some (Doc raw) ->
                  (forall members, raw <> JObject members) ->
                  fst (load_sessions w) = Raise AttributeError)
  /\ (forall members items item,
        data_file w = Some (Doc (JObject members)) ->
        dict_get "sessions" members = Some (JArray items) ->
        In item items -> is_ok (Session_of_kwargs item) = false ->
        fst (load_sessions w) = Raise TypeError)
  /\ (forall fields key,
        In key ["start_iso"; "end_iso"; "note"] -> dict_get key fields = None ->
        is_ok (Session_of_kwargs (JObject fields)) = false).
Proof.
  intros Hq.
  split.
  { intros Hf. split.
    - now rewrite (read_text_quiet DATA_FILE Undecodable w Hq Hf).
    - destruct (load_sessions_quiet w _ Hq Hf) as (w' & -> & _). reflexivity. }
  repeat split.
  - intros Hf. destruct (load_sessions_quiet w _ Hq Hf) as (w' & -> & _). reflexivity.
  - intros raw Hf Hno. destruct (load_sessions_quiet w _ Hq Hf) as (w' & -> & _).
    unfold bind, lift_result. simpl.
    destruct raw; try reflexivity. now destruct (Hno members).
  - intros members items item Hf Hk Hin Hbad.
    destruct (load_sessions_quiet w _ Hq Hf) as (w' & -> & _).
    unfold bind at 1, lift_result at 1. simpl json_loads. cbv iota.
    unfold bind at 1, lift_result at 1. simpl raw_get_sessions. rewrite Hk.
    unfold bind at 1, lift_result at 1. simpl py_iter. cbv iota.
    now apply load_items_raise with (item := item).
  - intros fields key Hkey Hnone. unfold Session_of_kwargs.
    destruct (forallb _ _); [|reflexivity].
    simpl in Hkey. destruct Hkey as [<-|[<-|[<-|[]]]]; rewrite Hnone;
      repeat match goal with |- context [match ?x with _ => _ end] => destruct x end;
      reflexivity.
Qed.

Lemma load_sessions_failures_witness :
  quiet garbled_world
  /\ fst (load_sessions garbled_world) = Raise JSONDecodeError
  /\ quiet undecodable_world
  /\ fst (load_sessions undecodable_world) = Raise UnicodeDecodeError.
Proof.
  exact (conj (Forall_nil_2 _)
           (conj (proj1 (proj2 (load_sessions_failures garbled_world (Forall_nil_2 _)))
                    eq_refl)
              (conj (Forall_nil_2 _)
                 (proj2 (proj1 (load_sessions_failures undecodable_world (Forall_nil_2 _))
                           eq_refl))))).
Defined.

(** X5. A first launch sets the store up: when there is no data file and
    no I/O call fails, [load_sessions] returns the empty list and leaves
    the directory and a data file that holds the empty collection, written
    in place. *)
Theorem load_sessions_first_launch w :
  quiet w -> data_file w = None ->
  fst (load_sessions w) = Ok []
  /\ app_dir (snd (load_sessions w)) = true
  /\ data_file (snd (load_sessions w)) = Some (Doc empty_store)
  /\ hd_error (oplog (snd (load_sessions w))) = Some (OpWrite DATA_FILE (Doc empty_store)).
Proof.
  intros Hq Hf.
  set (w1 := if app_dir w then popped w else log_op OpMkdir (set_app_dir true (popped w))).
  assert (Hq1 : quiet w1) by (subst w1; destruct (app_dir w); apply (quiet_popped w Hq)).
  assert (Hd1 : app_dir w1 = true) by (subst w1; now destruct (app_dir w) eqn:E).
  assert (Hf1 : data_file w1 = None) by (subst w1; now destruct (app_dir w)).
  assert (E : ensure_storage w
              = (Ok tt, log_op (OpWrite DATA_FILE (Doc empty_store))
                          (set_file DATA_FILE (Some (Doc empty_store)) (popped w1)))).
  { unfold ensure_storage. rewrite (bind_ok _ _ _ _ _ (mkdir_app_dir_quiet w Hq)).
    fold w1. clearbody w1.
    assert (Ex : exists_ DATA_FILE w1 = (Ok false, w1))
      by (unfold exists_, gets; simpl; now rewrite Hf1).
    rewrite (bind_ok _ _ _ _ _ Ex). cbn [negb].
    now apply write_text_quiet. }
  clearbody w1. unfold load_sessions. rewrite (bind_ok _ _ _ _ _ E).
  erewrite bind_ok;
    [|apply (read_text_quiet DATA_FILE (Doc empty_store));
      [apply quiet_popped, Hq1|reflexivity]].
  cbn. rewrite Hd1. auto.
Qed.

Lemma load_sessions_first_launch_witness :
  quiet first_world /\ data_file first_world = None
  /\ fst (load_sessions first_world) = Ok [].
Proof.
  exact (conj (Forall_nil_2 _) (conj eq_refl
           (proj1 (load_sessions_first_launch first_world (Forall_nil_2 _) eq_refl)))).
Defined.

(** *** Time arithmetic *)

Lemma dt_add_ok d td r :
  dt_add d td = Ok r -> instant r = instant d + td /\ aware r = aware d.
Proof.
  unfold dt_add. destruct (_ && _); [|discriminate]. intros [= <-].
  unfold instant, aware, utc. simpl utcoffset. rewrite wall_of_wall.
  destruct (utcoffset d); split; auto; lia.
Qed.

(** X6. The start of today that [start_of_today_local] returns has the
    date and the offset of the reading of the clock, and the reading lies
    within the 24 hours that begin there. *)
Theorem start_of_today_local_window w :
  let now := datetime_of (clock w (ticks w)) in
  exists d,
    fst (start_of_today_local w) = Ok d
    /\ toordinal d = toordinal now /\ utcoffset d = utcoffset now
    /\ instant d <= instant now < instant d + 24 * 3600 * US_PER_SECOND.
Proof.
  intros now. exists (replace_midnight now). split; [reflexivity|].
  split; [reflexivity|]. split; [reflexivity|].
  unfold instant. simpl utcoffset. unfold utc.
  rewrite wall_replace_midnight. subst now. unfold datetime_of.
  rewrite wall_of_wall, toordinal_of_wall.
  unfold US_PER_DAY, US_PER_SECOND. Z.to_euclidean_division_equations. lia.
Qed.

Lemma int_total_seconds_day (H : PyDatetime) : int_total_seconds US_PER_DAY = 86400.
Proof. rewrite total_seconds_exact; [reflexivity|]. vm_compute. reflexivity. Qed.

(** One turn of the loop adds to today between nothing and a full day. *)
Lemma totals_step_bound (H : PyDatetime) today_start tomorrow_start acc s w acc' w' :
  instant tomorrow_start - instant today_start = US_PER_DAY ->
  totals_step today_start tomorrow_start acc s w = (Ok acc', w') ->
  fst acc <= fst acc' <= fst acc + 86400.
Proof.
  intros Hday. destruct acc as [t a]. unfold totals_step. intros E. inv_ok.
  match goal with E : Ok _ = Ok _ |- _ => inversion E; subst; clear E end.
  repeat match goal with
  | E : dt_sub _ _ = Ok _ |- _ => apply dt_sub_ok in E as [-> _]
  | E : dt_max _ _ = Ok _ |- _ => apply dt_max_ok in E as (E & _)
  | E : dt_min _ _ = Ok _ |- _ => apply dt_min_ok in E as (E & _)
  end.
  simpl.
  match goal with
  | Hmax : instant ?os = Z.max _ _, Hmin : instant ?oe = Z.min _ _ |- _ =>
      assert (Hmono : int_total_seconds (instant oe - instant os) <= 86400)
        by (rewrite <- (int_total_seconds_day H); apply total_seconds_mono; lia)
  end.
  match goal with |- context [0 <? ?x] => destruct (Z.ltb_spec 0 x) end; lia.
Qed.

Lemma totals_loop_bound (H : PyDatetime) today_start tomorrow_start ss :
  instant tomorrow_start - instant today_start = US_PER_DAY ->
  forall acc w acc' w',
    foldM (totals_step today_start tomorrow_start) acc ss w = (Ok acc', w') ->
    fst acc <= fst acc' <= fst acc + 86400 * Z.of_nat (length ss).
Proof.
  intros Hday. induction ss as [|s ss IH]; intros acc w acc' w' E.
  - cbn in E. injection E as <- _. simpl. lia.
  - cbn [foldM] in E. apply bind_inv_ok in E as (acc1 & w1 & E1 & E2).
    apply (totals_step_bound H _ _ _ _ _ _ _ Hday) in E1. apply IH in E2.
    cbn [length]. lia.
Qed.

(** X7. Whatever the sessions and the clock, the seconds that
    [compute_totals] returns for today are not negative and are at most a
    full day for each session. *)
Theorem compute_totals_today_bounds (H : PyDatetime) sessions w today_sec all_sec w' :
  compute_totals sessions w = (Ok (today_sec, all_sec), w') ->
  0 <= today_sec <= 86400 * Z.of_nat (length sessions).
Proof.
  unfold compute_totals. intros E.
  apply bind_inv_ok in E as (ts & w1 & _ & E).
  apply bind_inv_ok in E as (tm & w2 & Etm & E).
  apply lift_result_inv in Etm as [Etm ->]. apply dt_add_ok in Etm as [Htm _].
  apply (totals_loop_bound H ts tm) in E; [exact E|].
  rewrite Htm. unfold timedelta_days. lia.
Qed.

Lemma compute_totals_today_bounds_witness :
  @compute_totals (FixedZone EST) [midnight_session] (world_at noon [])
  = (Ok (1800, 3600), set_ticks 1 (world_at noon []))
  /\ 0 <= 1800 <= 86400 * Z.of_nat (length [midnight_session]).
Proof.
  assert (E : @compute_totals (FixedZone EST) [midnight_session] (world_at noon [])
              = (Ok (1800, 3600), set_ticks 1 (world_at noon [])))
    by (vm_compute; reflexivity).
  exact (conj E (compute_totals_today_bounds (FixedZone EST) _ _ _ _ _ E)).
Defined.

Lemma sum_Z_Permutation l l' : Permutation l l' -> sum_Z l = sum_Z l'.
Proof.
  induction 1 as [|x l l' _ IH|x y l|l l' l'' _ IH1 _ IH2]; simpl; try lia.
Qed.

Lemma parses_to_interval_of (H : PyDatetime) ss :
  Forall (fun s => parses_to s (interval_of s)) ss ->
  Forall2 parses_to ss (map interval_of ss).
Proof. induction 1; constructor; auto. Qed.

(** X8. The totals do not depend on the order of the sessions: with the
    clock standing still and sessions whose stamps parse to aware
    datetimes, [compute_totals] returns the same for a list and for any
    rearrangement of it. *)
Theorem compute_totals_order_free (H : PyDatetime) ss ss' w now :
  (forall n, clock w n = now) ->
  has_tomorrow now ->
  Forall (fun s => parses_to s (interval_of s)) ss ->
  Permutation ss ss' ->
  fst (compute_totals ss w) = fst (compute_totals ss' w).
Proof.
  intros Hc Hr Hall Hperm.
  assert (Hall' : Forall (fun s => parses_to s (interval_of s)) ss')
    by (eapply Permutation_Forall; eauto).
  rewrite (compute_totals_frozen ss _ w now Hc Hr (parses_to_interval_of H ss Hall)).
  rewrite (compute_totals_frozen ss' _ w now Hc Hr (parses_to_interval_of H ss' Hall')).
  unfold Spec.today_seconds, Spec.total_seconds.
  f_equal. f_equal; apply sum_Z_Permutation, Permutation_map, Permutation_map, Hperm.
Qed.

Lemma compute_totals_order_free_witness :
  (forall n, clock (world_at noon []) n = noon)
  /\ has_tomorrow noon
  /\ Forall (fun s => @parses_to (FixedZone EST) s (@interval_of (FixedZone EST) s))
        [midnight_session; skewed_session]
  /\ Permutation [midnight_session; skewed_session] [skewed_session; midnight_session]
  /\ fst (@compute_totals (FixedZone EST) [midnight_session; skewed_session]
            (world_at noon []))
     = fst (@compute_totals (FixedZone EST) [skewed_session; midnight_session]
              (world_at noon [])).
Proof.
  assert (Hc : forall n, clock (world_at noon []) n = noon) by reflexivity.
  assert (Hr : has_tomorrow noon).
  { unfold has_tomorrow. vm_compute. split; [discriminate|reflexivity]. }
  assert (Hp : Forall (fun s => @parses_to (FixedZone EST) s (@interval_of (FixedZone EST) s))
                 [midnight_session; skewed_session]).
  { repeat constructor; intros e [= <-]; reflexivity. }
  assert (Hs : Permutation [midnight_session; skewed_session]
                 [skewed_session; midnight_session]) by apply perm_swap.
  exact (conj Hc (conj Hr (conj Hp (conj Hs
           (compute_totals_order_free (FixedZone EST) _ _ _ _ Hc Hr Hp Hs))))).
Defined.

(** *** [delete_selected] *)

Lemma unselected_from_eq k sel ss :
  map snd (List.filter (fun p : nat * Session => negb (existsb (Nat.eqb (fst p)) sel))
                       (imap (fun i s => (k + i, s)%nat) ss))
  = unselected_from k sel ss.
Proof.
  revert k. induction ss as [|x ss IH]; intros k; [reflexivity|].
  rewrite imap_cons. cbn [List.filter fst unselected_from].
  rewrite Nat.add_0_r.
  rewrite (imap_ext _ (fun i s => (Datatypes.S k + i, s)%nat))
    by (intros i y _; simpl; f_equal; lia).
  destruct (existsb (Nat.eqb k) sel); cbn [negb map snd]; now rewrite IH.
Qed.

Lemma unselected_eq sel ss : unselected sel ss = unselected_from 0 sel ss.
Proof. unfold unselected. now rewrite <- (unselected_from_eq 0). Qed.

Lemma existsb_eqb_In k sel : existsb (Nat.eqb k) sel = true <-> In k sel.
Proof.
  rewrite existsb_exists. split.
  - intros (x & Hin & Heq). apply Nat.eqb_eq in Heq. now subst.
  - intros Hin. exists k. split; [exact Hin|apply Nat.eqb_refl].
Qed.

Lemma unselected_from_ext k sel sel' ss :
  (forall j, In j sel <-> In j sel') ->
  unselected_from k sel ss = unselected_from k sel' ss.
Proof.
  intros Hext. revert k. induction ss as [|x ss IH]; intros k; [reflexivity|].
  cbn [unselected_from].
  assert (Hb : existsb (Nat.eqb k) sel = existsb (Nat.eqb k) sel').
  { apply eq_true_iff_eq. rewrite !existsb_eqb_In. apply Hext. }
  rewrite Hb, IH. reflexivity.
Qed.

(** Indices below the head of the list select nothing. *)
Lemma unselected_from_below k sel ss :
  (forall j, In j sel -> (j < k)%nat) -> unselected_from k sel ss = ss.
Proof.
  revert k. induction ss as [|x ss IH]; intros k Hlt; [reflexivity|].
  cbn [unselected_from].
  destruct (existsb (Nat.eqb k) sel) eqn:E.
  - apply existsb_eqb_In, Hlt in E. lia.
  - rewrite IH; [reflexivity|]. intros j Hj. apply Hlt in Hj. lia.
Qed.

(** An index past the end selects nothing. *)
Lemma unselected_from_beyond k i sel ss :
  (length ss <= i)%nat ->
  unselected_from k ((k + i)%nat :: sel) ss = unselected_from k sel ss.
Proof.
  revert k i. induction ss as [|x ss IH]; intros k i Hlen; [reflexivity|].
  cbn [unselected_from existsb]. cbn [length] in Hlen.
  replace (k =? k + i)%nat with false by (symmetry; apply Nat.eqb_neq; lia).
  cbn [orb]. destruct i as [|i]; [lia|].
  replace (k + Datatypes.S i)%nat with (Datatypes.S k + i)%nat by lia.
  rewrite IH by lia. reflexivity.
Qed.

(** Deleting at an index above all the others that are selected. *)
Lemma unselected_from_delete k i sel ss :
  (forall j, In j sel -> (j < k + i)%nat) ->
  unselected_from k sel (delete i ss) = unselected_from k ((k + i)%nat :: sel) ss.
Proof.
  revert k i. induction ss as [|x ss IH]; intros k i Hlt; [now destruct i|].
  destruct i as [|i].
  - change (delete 0%nat (x :: ss)) with ss. cbn [unselected_from existsb].
    rewrite Nat.add_0_r in *. rewrite Nat.eqb_refl. cbn [orb].
    rewrite (unselected_from_below k sel ss Hlt).
    rewrite unselected_from_below; [reflexivity|].
    intros j [<-|Hj]; [lia|]. apply Hlt in Hj. lia.
  - change (delete (Datatypes.S i) (x :: ss)) with (x :: delete i ss).
    cbn [unselected_from existsb].
    replace (k =? k + Datatypes.S i)%nat with false by (symmetry; apply Nat.eqb_neq; lia).
    cbn [orb].
    replace (k + Datatypes.S i)%nat with (Datatypes.S k + i)%nat in * by lia.
    rewrite (IH (Datatypes.S k) i Hlt). reflexivity.
Qed.

Lemma delete_indices_descending l :
  StronglySorted (fun a b => (b < a)%nat) l ->
  forall ss, delete_indices l ss = unselected_from 0 l ss.
Proof.
  unfold delete_indices.
  induction 1 as [|i l Hsorted IH Hall]; intros ss.
  - symmetry. apply unselected_from_below. intros j [].
  - cbn [fold_left].
    assert (Hlt : forall j, In j l -> (j < 0 + i)%nat)
      by (intros j Hj; rewrite Forall_forall in Hall; apply Hall, list_elem_of_In, Hj).
    destruct (Nat.ltb_spec i (length ss)) as [Hin|Hout].
    + rewrite IH. apply (unselected_from_delete 0 i l ss Hlt).
    + rewrite IH. symmetry. apply (unselected_from_beyond 0 i l ss Hout).
Qed.

Lemma insert_desc_In i l j : In j (insert_desc i l) <-> j = i \/ In j l.
Proof.
  induction l as [|x l IH]; cbn [insert_desc].
  - simpl. intuition.
  - destruct (x <=? i)%nat; simpl; [intuition|]. rewrite IH. intuition.
Qed.

Lemma sorted_reverse_In l j : In j (sorted_reverse l) <-> In j l.
Proof.
  induction l as [|x l IH]; [reflexivity|].
  unfold sorted_reverse in *. cbn [foldr]. rewrite insert_desc_In, IH. simpl. intuition.
Qed.

Lemma insert_desc_sorted i l :
  ~ In i l ->
  StronglySorted (fun a b => (b < a)%nat) l ->
  StronglySorted (fun a b => (b < a)%nat) (insert_desc i l).
Proof.
  intros Hni Hs. induction Hs as [|x l Hs IH Hall]; cbn [insert_desc].
  - repeat constructor.
  - destruct (Nat.leb_spec x i) as [Hle|Hgt].
    + assert (Hne : x <> i) by (intros ->; apply Hni; now left).
      constructor; [now constructor|]. constructor; [lia|].
      rewrite Forall_forall in *. intros y Hy. specialize (Hall y Hy). lia.
    + constructor.
      * apply IH. intros Hin. apply Hni. now right.
      * rewrite Forall_forall in *. intros y Hy.
        apply list_elem_of_In, insert_desc_In in Hy as [->|Hy]; [lia|].
        apply Hall, list_elem_of_In, Hy.
Qed.

Lemma sorted_reverse_sorted l :
  List.NoDup l -> StronglySorted (fun a b => (b < a)%nat) (sorted_reverse l).
Proof.
  induction 1 as [|x l Hni _ IH]; [constructor|].
  unfold sorted_reverse in *. cbn [foldr]. apply insert_desc_sorted; [|exact IH].
  fold (sorted_reverse l). now rewrite sorted_reverse_In.
Qed.

(** X9. [delete_selected] removes the sessions of the selected rows and no
    other: after a confirmed deletion of distinct rows the list holds, in
    their order, the sessions whose index was not selected; a selected
    index past the end is ignored. When the dialog is declined nothing is
    touched, neither the list nor the files nor the clock. *)
Theorem delete_selected_removes (H : PyDatetime) sel sys :
  List.NoDup sel ->
  sessions (self (snd (delete_selected sel true sys)))
  = unselected sel (sessions (self sys))
  /\ delete_selected sel false sys = (Ok tt, sys).
Proof.
  intros Hnd. split; [|now destruct sel].
  rewrite delete_selected_sessions, unselected_eq.
  destruct sel as [|i sel].
  - symmetry. apply unselected_from_below. intros j [].
  - rewrite (delete_indices_descending _ (sorted_reverse_sorted _ Hnd)).
    apply unselected_from_ext. intros j. apply sorted_reverse_In.
Qed.

Lemma delete_selected_removes_witness :
  List.NoDup [0; 7; 2]%nat
  /\ sessions (self (snd (@delete_selected (FixedZone EST) [0; 7; 2]%nat true
                            two_running_sys)))
     = unselected [0; 7; 2]%nat (sessions (self two_running_sys)).
Proof.
  assert (Hnd : List.NoDup [0; 7; 2]%nat).
  { repeat constructor; simpl; intuition discriminate. }
  exact (conj Hnd
           (proj1 (delete_selected_removes (FixedZone EST) _ two_running_sys Hnd))).
Defined.

(** *** In memory and on disk *)

(** The save at the end of a mutating call when no I/O call fails. *)
Lemma save_refresh_quiet (H : PyDatetime) ss sys :
  quiet (world sys) ->
  let sys' := snd (bind (in_world (save_sessions ss)) (fun _ => refresh) sys) in
  quiet (world sys') /\ data_file (world sys') = Some (Doc (store_of ss)).
Proof.
  intros Hq.
  destruct (save_sessions_quiet ss (world sys) Hq) as (w' & E & Hq' & Hd & _).
  cbv zeta. rewrite (bind_ok _ _ _ _ _ (in_world_eq _ _ _ _ E)).
  pose proof (refresh_disk (mk_Sys (self sys) w')) as Hr.
  unfold disk in Hr. cbn [world] in Hr. injection Hr as _ Hb _ Hf _.
  unfold quiet. rewrite Hf, Hb. auto.
Qed.

Lemma mutated_quiet (H : PyDatetime) sys : quiet (world sys) -> quiet (world (mutated sys)).
Proof. unfold mutated. now destruct (running_session_index (sessions (self sys))). Qed.

(** X10. What a call has saved is what the next launch loads: when no I/O
    call fails, after a toggle, a confirmed deletion or a quit with a
    session running, [load_sessions] returns the list that is in memory. *)
Theorem call_then_load (H : PyDatetime) o sys :
  quiet (world sys) ->
  reaches_save o sys = true ->
  fst (load_sessions (world (snd (run_op o sys))))
  = Ok (sessions (self (snd (run_op o sys)))).
Proof.
  intros Hq Hsave.
  assert (Hgoal : quiet (world (snd (run_op o sys)))
                  /\ data_file (world (snd (run_op o sys)))
                     = Some (Doc (store_of (sessions (self (snd (run_op o sys))))))).
  { destruct o as [|text|sel confirmed| |]; cbn [run_op reaches_save] in *;
      try discriminate.
    - rewrite toggle_sessions, toggle_eq.
      apply (save_refresh_quiet H _ (mutated sys)), mutated_quiet, Hq.
    - destruct sel as [|i sel]; [discriminate|]. destruct confirmed; [|discriminate].
      rewrite delete_selected_sessions, delete_selected_eq.
      apply (save_refresh_quiet H _ (mk_Sys _ (world sys))), Hq.
    - unfold TimeClockApp_is_running in Hsave. rewrite quit_app_eq.
      destruct (running_session_index (sessions (self sys))); [|discriminate].
      unfold swallow. cbn [snd]. rewrite in_world_snd. cbn [self world].
      destruct (save_sessions_quiet (sessions (self (mutated sys)))
                  (world (mutated sys)) (mutated_quiet H sys Hq))
        as (w' & E & Hq' & Hd & _).
      rewrite E. auto. }
  destruct Hgoal as [Hq' Hd]. now apply load_store_quiet.
Qed.

Lemma call_then_load_witness :
  quiet (world running_sys)
  /\ reaches_save Quit running_sys = true
  /\ fst (load_sessions (world (snd (@run_op (FixedZone EST) Quit running_sys))))
     = Ok (sessions (self (snd (@run_op (FixedZone EST) Quit running_sys)))).
Proof.
  exact (conj (Forall_nil_2 _) (conj eq_refl
           (call_then_load (FixedZone EST) Quit running_sys (Forall_nil_2 _) eq_refl))).
Defined.

(** *** [quit_app] *)

Lemma count_running_one_alter ss i s f :
  (count_running ss <= 1)%nat -> ss !! i = Some s -> is_running s = true ->
  is_running (f s) = false -> count_running (alter f i ss) = 0%nat.
Proof.
  intros Hone Hs Hr Hf. pose proof (count_running_alter f ss i s Hs Hr Hf). lia.
Qed.

(** X11. [quit_app] never raises. With no session running it touches
    nothing. With one running it gives the running session of the greatest
    index the reading of the clock as end, so that, where at most one was
    running, none is left; and a failing save is passed over in silence,
    with the list in memory closed all the same. *)
Theorem quit_app_closes (H : PyDatetime) sys :
  let before := sessions (self sys) in
  let after := sessions (self (snd (quit_app sys))) in
  let now := datetime_of (clock (world sys) (ticks (world sys))) in
  fst (quit_app sys) = Ok tt
  /\ (running_session_index before = None -> snd (quit_app sys) = sys)
  /\ (forall idx, running_session_index before = Some idx ->
        after = alter (set_end_iso (JString (dt_to_iso now))) idx before)
  /\ ((count_running before <= 1)%nat -> count_running after = 0%nat).
Proof.
  intros before after now. subst before after. rewrite quit_app_eq.
  destruct (running_session_index (sessions (self sys))) as [idx|] eqn:E.
  - unfold swallow. cbn [fst snd]. rewrite in_world_snd. cbn [self].
    rewrite (mutated_running H sys idx E). fold now.
    split; [reflexivity|]. split; [discriminate|].
    split; [now intros i [= <-]|].
    intros Hone. destruct (running_session_index_Some _ idx E) as ((s & Hs & Hr) & _).
    now apply (count_running_one_alter _ idx s).
  - split; [reflexivity|]. split; [reflexivity|]. split; [discriminate|].
    intros _. cbn [snd]. apply count_running_none.
    apply (running_session_index_None _ E).
Qed.

Lemma quit_app_closes_witness :
  (count_running (sessions (self running_sys)) <= 1)%nat
  /\ count_running (sessions (self (snd (@quit_app (FixedZone EST) running_sys)))) = 0%nat.
Proof.
  assert (Hone : (count_running (sessions (self running_sys)) <= 1)%nat)
    by (vm_compute; lia).
  exact (conj Hone
           (proj2 (proj2 (proj2 (quit_app_closes (FixedZone EST) running_sys))) Hone)).
Defined.

(** *** Start and stop *)

Lemma running_from_app ss r :
  is_running r = true ->
  running_session_index (ss ++ [r]) = Some (length ss).
Proof.
  intros Hr. unfold running_session_index. rewrite length_app. cbn [length].
  replace (length ss + 1)%nat with (Datatypes.S (length ss)) by lia.
  cbn [running_from]. rewrite lookup_app_r by lia.
  replace (length ss - length ss)%nat with 0%nat by lia.
  cbn. now rewrite Hr.
Qed.

Lemma running_session_index_none_intro ss :
  (forall s, In s ss -> is_running s = false) -> running_session_index ss = None.
Proof.
  intros Hall. destruct (running_session_index ss) as [i|] eqn:E; [|reflexivity].
  destruct (running_session_index_Some ss i E) as ((s & Hs & Hr) & _).
  rewrite (Hall s) in Hr; [discriminate|].
  apply list_elem_of_In, list_elem_of_lookup. eauto.
Qed.

(** X12. Start and then stop add one closed session: two toggles from a
    state with no running session leave the list with one more session at
    the end, which has the two readings of the clock as start and end and
    the stripped note, every earlier session as it was, and no session
    running. *)
Theorem toggle_start_then_stop (H : PyDatetime) sys :
  running_session_index (sessions (self sys)) = None ->
  let started := snd (toggle sys) in
  let stopped := snd (toggle started) in
  let t1 := datetime_of (clock (world sys) (ticks (world sys))) in
  let t2 := datetime_of (clock (world started) (ticks (world started))) in
  sessions (self stopped)
  = (sessions (self sys)
     ++ [mk_Session (JString (dt_to_iso t1)) (JString (dt_to_iso t2))
           (JString (strip (note_var (self sys))))])%list
  /\ running_session_index (sessions (self stopped)) = None.
Proof.
  intros E started stopped t1 t2.
  assert (Hstarted : sessions (self started)
                     = (sessions (self sys)
                        ++ [mk_Session (JString (dt_to_iso t1)) JNull
                              (JString (strip (note_var (self sys))))])%list)
    by apply (toggle_start_effect H sys E).
  assert (Eidx : running_session_index (sessions (self started))
                 = Some (length (sessions (self sys))))
    by (rewrite Hstarted; now apply running_from_app).
  destruct (toggle_stop_effect H started _ Eidx) as (Hstopped & _).
  fold stopped t2 in Hstopped.
  assert (Hfinal : sessions (self stopped)
                   = (sessions (self sys)
                      ++ [mk_Session (JString (dt_to_iso t1)) (JString (dt_to_iso t2))
                            (JString (strip (note_var (self sys))))])%list).
  { rewrite Hstopped, Hstarted.
    replace (length (sessions (self sys))) with (length (sessions (self sys)) + 0)%nat
      by lia.
    now rewrite alter_app_r. }
  split; [exact Hfinal|]. rewrite Hfinal.
  apply running_session_index_none_intro. intros s Hin.
  apply in_app_or in Hin as [Hin|[<-|[]]]; [|reflexivity].
  apply list_elem_of_In, list_elem_of_lookup in Hin as [j Hj].
  apply (running_session_index_None _ E j s Hj).
Qed.

Lemma toggle_start_then_stop_witness :
  running_session_index (sessions (self fresh_sys)) = None
  /\ running_session_index
       (sessions (self (snd (@toggle (FixedZone EST)
                               (snd (@toggle (FixedZone EST) fresh_sys))))))
     = None.
Proof.
  exact (conj eq_refl
           (proj2 (toggle_start_then_stop (FixedZone EST) fresh_sys eq_refl))).
Defined.

(** *** [refresh] and [tick] *)

Lemma on_self_note_var f :
  (forall a, note_var (f a) = note_var a) ->
  preserves (fun s => note_var (self s)) (on_self f).
Proof. intros Hf s. simpl. apply Hf. Qed.

Lemma refresh_note_var (H : PyDatetime) :
  preserves (fun s => note_var (self s)) refresh.
Proof.
  unfold refresh.
  repeat first
    [ apply preserves_bind; [|intros ?]
    | apply preserves_foldM; intros ? ?
    | apply on_self_note_var; intros ?; reflexivity
    | apply (in_world_self note_var)
    | apply preserves_gets
    | apply preserves_raise
    | match goal with |- preserves _ (match ?x with _ => _ end) => destruct x end ].
Qed.

(** X13. [refresh], and with it the [tick] of every second, only redraws:
    whether it returns or raises, the session list, the note being typed
    and everything on disk are as before. *)
Theorem refresh_only_redraws (H : PyDatetime) sys :
  (sessions (self (snd (refresh sys))) = sessions (self sys)
   /\ note_var (self (snd (refresh sys))) = note_var (self sys)
   /\ disk (world (snd (refresh sys))) = disk (world sys))
  /\ (sessions (self (snd (tick sys))) = sessions (self sys)
      /\ note_var (self (snd (tick sys))) = note_var (self sys)
      /\ disk (world (snd (tick sys))) = disk (world sys)).
Proof.
  assert (Hr : sessions (self (snd (refresh sys))) = sessions (self sys)
               /\ note_var (self (snd (refresh sys))) = note_var (self sys)
               /\ disk (world (snd (refresh sys))) = disk (world sys)).
  { split; [apply refresh_sessions|]. split; [apply (refresh_note_var H)|].
    apply refresh_disk. }
  split; [exact Hr|]. rewrite tick_eq.
  destruct (running_session_index (sessions (self sys))); [exact Hr|auto].
Qed.

Lemma gets_inv {S A} (f : S -> A) s r s' : gets f s = (r, s') -> r = Ok (f s) /\ s' = s.
Proof. unfold gets. now intros [= <- <-]. Qed.

Lemma on_self_inv f s r s' :
  on_self f s = (r, s') -> r = Ok tt /\ s' = mk_Sys (f (self s)) (world s).
Proof. unfold on_self, modify. now intros [= <- <-]. Qed.

Lemma in_world_inv {A} (m : M World A) s r s' :
  in_world m s = (r, s') -> exists w', m (world s) = (r, w') /\ s' = mk_Sys (self s) w'.
Proof.
  unfold in_world. destruct (m (world s)) as [r0 w']. intros [= <- <-]. eauto.
Qed.

Lemma refresh_row_inv (H : PyDatetime) rows i s w rows' w' :
  refresh_row rows (i, s) w = (Ok rows', w') ->
  exists start e dur, rows' = (rows ++ [mk_row i start e dur (note s)])%list.
Proof.
  unfold refresh_row. intros E. inv_ok.
  match goal with E : Ok _ = Ok _ |- _ => injection E as -> end. eauto.
Qed.

(** The loop of [refresh] that fills the table. *)
Lemma refresh_rows_loop (H : PyDatetime) entries :
  forall s s',
    foldM (fun (_ : unit) entry =>
             let! rows := gets (fun s => tree (self s)) in
             let! rows' := in_world (refresh_row rows entry) in
             on_self (set_tree rows'))
          tt entries s = (Ok tt, s') ->
    exists rows,
      tree (self s') = (tree (self s) ++ rows)%list
      /\ map iid rows = map fst entries
      /\ map row_note rows = map (fun e => note (snd e)) entries
      /\ toggle_btn (self s') = toggle_btn (self s)
      /\ status_var (self s') = status_var (self s).
Proof.
  induction entries as [|[i x] entries IH]; intros s s' E.
  - cbn in E. injection E as <-. exists []. rewrite app_nil_r. auto.
  - cbn [foldM] in E. apply bind_inv_ok in E as ([] & s1 & E1 & E2).
    apply bind_inv_ok in E1 as (rows & s0 & Eg & E1).
    apply gets_inv in Eg as [[= <-] ->].
    apply bind_inv_ok in E1 as (rows' & s2 & Er & Eo).
    apply in_world_inv in Er as (w' & Er & ->).
    apply on_self_inv in Eo as [_ ->].
    apply refresh_row_inv in Er as (start & e & dur & ->).
    apply IH in E2 as (more & Htree & Hiid & Hnote & Hbtn & Hstatus).
    cbn [self set_tree tree toggle_btn status_var] in *.
    eexists (_ :: more). rewrite Htree, <- app_assoc. split; [reflexivity|].
    cbn [map iid row_note fst snd]. rewrite Hiid, Hnote. auto.
Qed.

Lemma imap_pair_fst {A} (l : list A) k :
  map fst (imap (fun i x => ((k + i)%nat, x)) l) = seq k (length l).
Proof.
  revert k. induction l as [|x l IH]; intros k; [reflexivity|].
  rewrite imap_cons. cbn [map fst length seq]. rewrite Nat.add_0_r. f_equal.
  rewrite (imap_ext _ (fun i y => ((Datatypes.S k + i)%nat, y)))
    by (intros i y _; simpl; f_equal; lia).
  apply IH.
Qed.

Lemma imap_pair_snd {A B} (f : A -> B) (l : list A) k :
  map (fun e => f (snd e)) (imap (fun i x => ((k + i)%nat, x)) l) = map f l.
Proof.
  revert k. induction l as [|x l IH]; intros k; [reflexivity|].
  rewrite imap_cons. cbn [map snd]. f_equal.
  rewrite (imap_ext _ (fun i y => ((Datatypes.S k + i)%nat, y)))
    by (intros i y _; simpl; f_equal; lia).
  apply IH.
Qed.

(** X14. When [refresh] returns, the window shows the state of the list:
    the button reads Stop exactly when a session is running, and then the
    status shows a running time; the table has one row for each session,
    in order, the row of the session at index i is named by i, which is
    what [delete_selected] reads back, and carries its note. *)
Theorem refresh_shows_sessions (H : PyDatetime) sys sys' :
  refresh sys = (Ok tt, sys') ->
  let ss := sessions (self sys) in
  toggle_btn (self sys') = (if TimeClockApp_is_running ss then "Stop" else "Start")
  /\ (status_var (self sys') = None <-> TimeClockApp_is_running ss = false)
  /\ map iid (tree (self sys')) = seq 0 (length ss)
  /\ map row_note (tree (self sys')) = map note ss.
Proof.
  intros E ss. unfold refresh in E.
  apply bind_inv_ok in E as (ss0 & s0 & Eg & E).
  apply gets_inv in Eg as [Eg ->]. injection Eg as Eg. fold ss in Eg. subst ss0.
  apply bind_inv_ok in E as ([] & s1 & Ehead & E).
  apply bind_inv_ok in E as (totals & s2 & Et & E).
  apply in_world_inv in Et as (w2 & _ & ->).
  apply bind_inv_ok in E as ([] & s3 & Ea & E). apply on_self_inv in Ea as [_ ->].
  apply bind_inv_ok in E as ([] & s4 & Ea & E). apply on_self_inv in Ea as [_ ->].
  apply bind_inv_ok in E as ([] & s5 & Ea & E). apply on_self_inv in Ea as [_ ->].
  apply refresh_rows_loop in E as (rows & Htree & Hiid & Hnote & Hbtn & Hstatus).
  cbn [self world set_tree set_all_total_var set_today_total_var tree toggle_btn
       status_var app_nil_l] in *.
  assert (Hhead : toggle_btn (self s1)
                  = (if TimeClockApp_is_running ss then "Stop" else "Start")
                  /\ (status_var (self s1) = None <-> TimeClockApp_is_running ss = false)).
  { unfold TimeClockApp_is_running.
    destruct (running_session_index ss) as [idx|].
    - apply bind_inv_ok in Ehead as ([] & s6 & Ea & Eb).
      apply on_self_inv in Ea as [_ ->].
      destruct (ss !! idx) as [s|]; [|discriminate].
      apply bind_inv_ok in Eb as (d & s7 & Ed & Eb).
      apply in_world_inv in Ed as (w7 & _ & ->).
      apply on_self_inv in Eb as [_ ->]. cbn. split; [reflexivity|].
      split; discriminate.
    - apply bind_inv_ok in Ehead as ([] & s6 & Ea & Eb).
      apply on_self_inv in Ea as [_ ->]. apply on_self_inv in Eb as [_ ->].
      cbn. split; [reflexivity|]. split; reflexivity. }
  destruct Hhead as [Hb Hs].
  rewrite Hbtn, Hstatus, Htree. cbn [app].
  split; [exact Hb|]. split; [exact Hs|].
  rewrite Hiid, Hnote.
  split; [apply (imap_pair_fst ss 0)|apply (imap_pair_snd note ss 0)].
Qed.

Lemma refresh_shows_sessions_witness :
  @refresh (FixedZone EST) running_sys
  = (Ok tt, snd (@refresh (FixedZone EST) running_sys))
  /\ toggle_btn (self (snd (@refresh (FixedZone EST) running_sys))) = "Stop"
  /\ map iid (tree (self (snd (@refresh (FixedZone EST) running_sys)))) = [0%nat].
Proof.
  assert (E : @refresh (FixedZone EST) running_sys
              = (Ok tt, snd (@refresh (FixedZone EST) running_sys)))
    by (vm_compute; reflexivity).
  pose proof (refresh_shows_sessions (FixedZone EST) running_sys _ E) as (Hb & _ & Hi & _).
  exact (conj E (conj Hb Hi)).
Defined.

(** *** [export_csv] *)








(** *** [fmt_duration] *)

Lemma NilEmpty_colon_free d : colon_free (NilEmpty.string_of_uint d) = true.
Proof. induction d; cbn; auto. Qed.

Lemma str_of_Z_colon_free n : colon_free (str_of_Z n) = true.
Proof.
  unfold str_of_Z, NilZero.string_of_uint.
  destruct (N.to_uint (Z.to_N n)) eqn:E; try reflexivity;
    rewrite <- E; apply NilEmpty_colon_free.
Qed.

Lemma pad2_colon_free n : colon_free (pad2 n) = true.
Proof.
  unfold pad2. destruct (n <? 10); [cbn|]; apply str_of_Z_colon_free.
Qed.

Lemma colon_split s1 : forall s2 r1 r2,
  colon_free s1 = true -> colon_free s2 = true ->
  (s1 ++ String ":" r1)%string = (s2 ++ String ":" r2)%string ->
  s1 = s2 /\ r1 = r2.
Proof.
  induction s1 as [|c s1 IH]; intros [|c2 s2] r1 r2 H1 H2 E; cbn in *.
  - injection E as ->. auto.
  - injection E as <- _. cbn in H2. discriminate.
  - injection E as -> _. cbn in H1. discriminate.
  - injection E as -> E. apply andb_prop in H1 as [_ H1]. apply andb_prop in H2 as [_ H2].
    destruct (IH _ _ _ H1 H2 E) as [-> ->]. auto.
Qed.

Lemma str_of_Z_read n :
  0 <= n -> option_map N.of_uint (NilZero.uint_of_string (str_of_Z n)) = Some (Z.to_N n).
Proof.
  intros _. unfold str_of_Z. rewrite NilZero.usu.
  - cbn. now rewrite DecimalN.Unsigned.of_to.
  - destruct (Z.to_N n); cbn; [discriminate|].
    intros E. apply (f_equal Pos.of_uint) in E. rewrite DecimalPos.Unsigned.of_to in E.
    discriminate.
Qed.

Lemma pad2_read n :
  0 <= n -> option_map N.of_uint (NilZero.uint_of_string (pad2 n)) = Some (Z.to_N n).
Proof.
  intros Hn. unfold pad2. destruct (n <? 10); [|now apply str_of_Z_read].
  pose proof (str_of_Z_read n Hn) as E.
  destruct (str_of_Z n) as [|c s] eqn:Es; [discriminate|].
  change (NilZero.uint_of_string (String "0" (String c s)))
    with (NilEmpty.uint_of_string (String "0" (String c s))).
  change (NilZero.uint_of_string (String c s))
    with (NilEmpty.uint_of_string (String c s)) in E.
  change (NilEmpty.uint_of_string (String "0" (String c s)))
    with (uint_of_char "0" (NilEmpty.uint_of_string (String c s))).
  destruct (NilEmpty.uint_of_string (String c s)); [exact E|discriminate E].
Qed.

(** X16. [fmt_duration] shows a duration faithfully: two durations are
    displayed as the same text exactly when they are equal once the
    negative ones are taken as zero. *)
Theorem fmt_duration_faithful a b :
  fmt_duration a = fmt_duration b <-> Z.max 0 a = Z.max 0 b.
Proof.
  split.
  2:{ intros E. rewrite (fmt_duration_clamps a), (fmt_duration_clamps b). now rewrite E. }
  rewrite (fmt_duration_clamps a), (fmt_duration_clamps b).
  assert (Ha : 0 <= Z.max 0 a) by lia. assert (Hb : 0 <= Z.max 0 b) by lia.
  revert Ha Hb. generalize (Z.max 0 a) (Z.max 0 b). clear a b. intros a b Ha Hb.
  unfold fmt_duration.
  destruct (Z.ltb_spec a 0); [lia|]. destruct (Z.ltb_spec b 0); [lia|].
  intros E.
  apply colon_split in E as [Eh E]; try apply str_of_Z_colon_free.
  apply colon_split in E as [Em Es]; try apply pad2_colon_free.
  assert (Hh : a / 3600 = b / 3600).
  { apply (f_equal (fun s => option_map N.of_uint (NilZero.uint_of_string s))) in Eh.
    rewrite !str_of_Z_read in Eh by (apply Z.div_pos; lia). injection Eh as Eh.
    assert (0 <= a / 3600) by (apply Z.div_pos; lia).
    assert (0 <= b / 3600) by (apply Z.div_pos; lia). lia. }
  assert (Hm : a mod 3600 / 60 = b mod 3600 / 60).
  { apply (f_equal (fun s => option_map N.of_uint (NilZero.uint_of_string s))) in Em.
    rewrite !pad2_read in Em by (apply Z.div_pos; [apply Z.mod_pos_bound|]; lia).
    injection Em as Em.
    assert (0 <= a mod 3600 / 60) by (apply Z.div_pos; [apply Z.mod_pos_bound|]; lia).
    assert (0 <= b mod 3600 / 60) by (apply Z.div_pos; [apply Z.mod_pos_bound|]; lia).
    lia. }
  assert (Hs : a mod 60 = b mod 60).
  { apply (f_equal (fun s => option_map N.of_uint (NilZero.uint_of_string s))) in Es.
    rewrite !pad2_read in Es by (apply Z.mod_pos_bound; lia).
    injection Es as Es.
    pose proof (Z.mod_pos_bound a 60). pose proof (Z.mod_pos_bound b 60). lia. }
  clear Eh Em Es. Z.to_euclidean_division_equations. lia.
Qed.

(** *** Deleting the running session *)

Lemma unselected_from_idle k sel ss :
  (forall i s, ss !! i = Some s -> is_running s = true -> In (k + i)%nat sel) ->
  forall s, In s (unselected_from k sel ss) -> is_running s = false.
Proof.
  revert k. induction ss as [|x ss IH]; intros k Hsel s Hin; [destruct Hin|].
  assert (Hrest : forall i s, ss !! i = Some s -> is_running s = true ->
                              In (Datatypes.S k + i)%nat sel).
  { intros i y Hl Hr. replace (Datatypes.S k + i)%nat with (k + Datatypes.S i)%nat by lia.
    apply (Hsel (Datatypes.S i) y Hl Hr). }
  cbn [unselected_from] in Hin.
  destruct (existsb (Nat.eqb k) sel) eqn:E.
  - apply (IH (Datatypes.S k) Hrest s Hin).
  - destruct Hin as [<-|Hin]; [|apply (IH (Datatypes.S k) Hrest s Hin)].
    destruct (is_running x) eqn:R; [|reflexivity].
    pose proof (Hsel 0%nat x eq_refl R) as Hk. rewrite Nat.add_0_r in Hk.
    apply existsb_eqb_In in Hk. congruence.
Qed.

Lemma count_running_pos ss i s :
  ss !! i = Some s -> is_running s = true -> (1 <= count_running ss)%nat.
Proof.
  revert i. unfold count_running.
  induction ss as [|x ss IH]; intros [|i] Hl Hr; try discriminate; cbn in *.
  - injection Hl as ->. rewrite Hr. cbn. lia.
  - specialize (IH i Hl Hr). destruct (is_running x); cbn; lia.
Qed.

Lemma single_running ss :
  (count_running ss <= 1)%nat ->
  forall i j s s',
    ss !! i = Some s -> is_running s = true ->
    ss !! j = Some s' -> is_running s' = true -> i = j.
Proof.
  induction ss as [|x ss IH]; intros Hc i j s s' Hi Hri Hj Hrj; [discriminate|].
  assert (Hx : count_running (x :: ss)
               = ((if is_running x then 1 else 0) + count_running ss)%nat)
    by (unfold count_running; cbn; now destruct (is_running x)).
  rewrite Hx in Hc.
  destruct i as [|i], j as [|j]; cbn in Hi, Hj.
  - reflexivity.
  - injection Hi as ->. rewrite Hri in Hc.
    pose proof (count_running_pos ss j s' Hj Hrj). lia.
  - injection Hj as ->. rewrite Hrj in Hc.
    pose proof (count_running_pos ss i s Hi Hri). lia.
  - f_equal. apply (IH ltac:(lia) i j s s' Hi Hri Hj Hrj).
Qed.

(** X17. Deleting the running session leaves the program idle, and the next
    [toggle] starts a session without a stop in between: from a state with
    at most one running session, a confirmed deletion of distinct rows
    among which is the running one leaves a list in which no session is
    running, and [toggle] then makes it one longer, with exactly one
    running session. This holds whether the saves succeed or fail. *)
Theorem delete_running_then_toggle (H : PyDatetime) sel sys idx :
  List.NoDup sel ->
  (count_running (sessions (self sys)) <= 1)%nat ->
  running_session_index (sessions (self sys)) = Some idx ->
  In idx sel ->
  let sys1 := snd (delete_selected sel true sys) in
  running_session_index (sessions (self sys1)) = None
  /\ length (sessions (self (snd (toggle sys1))))
     = Datatypes.S (length (sessions (self sys1)))
  /\ count_running (sessions (self (snd (toggle sys1)))) = 1%nat.
Proof.
  intros Hnd Hc Hidx Hin sys1.
  destruct (running_session_index_Some _ _ Hidx) as ((r & Hr & Hrun) & _).
  assert (Hss : sessions (self sys1)
                = unselected_from 0 (sorted_reverse sel) (sessions (self sys))).
  { subst sys1. rewrite delete_selected_sessions.
    destruct sel as [|i sel]; [destruct Hin|].
    apply (delete_indices_descending _ (sorted_reverse_sorted _ Hnd)). }
  assert (Hidle : forall s, In s (sessions (self sys1)) -> is_running s = false).
  { rewrite Hss. apply unselected_from_idle. intros i s Hi Hri.
    rewrite (single_running _ Hc i idx s r Hi Hri Hr Hrun).
    now apply sorted_reverse_In. }
  assert (Hnone : running_session_index (sessions (self sys1)) = None)
    by now apply running_session_index_none_intro.
  split; [exact Hnone|].
  rewrite (toggle_start_effect H sys1 Hnone).
  rewrite length_app, count_running_app. cbn [length].
  rewrite (count_running_none (sessions (self sys1)) (running_session_index_None _ Hnone)).
  split; [lia|reflexivity].
Qed.

Lemma delete_running_then_toggle_witness :
  List.NoDup [0%nat]
  /\ (count_running (sessions (self running_sys)) <= 1)%nat
  /\ running_session_index (sessions (self running_sys)) = Some 0%nat
  /\ count_running
       (sessions (self (snd (@toggle (FixedZone EST)
                               (snd (@delete_selected (FixedZone EST) [0%nat] true
                                       running_sys)))))) = 1%nat.
Proof.
  assert (Hnd : List.NoDup [0%nat]) by (repeat constructor; simpl; intuition).
  assert (Hc : (count_running (sessions (self running_sys)) <= 1)%nat)
    by (vm_compute; lia).
  assert (Hidx : running_session_index (sessions (self running_sys)) = Some 0%nat)
    by reflexivity.
  exact (conj Hnd (conj Hc (conj Hidx
           (proj2 (proj2 (delete_running_then_toggle (FixedZone EST) [0%nat] running_sys
                            0%nat Hnd Hc Hidx (or_introl eq_refl))))))).
Defined.

(** *** [str.strip] *)

(** Every white space character is removed from the front and leaves
    nothing on its own. *)
Lemma lstrip_white_space ws s :
  In ws white_space -> lstrip (ws ++ s) = lstrip s /\ strip ws = EmptyString.
Proof.
  intros Hin. unfold white_space in Hin. cbn [map] in Hin.
  repeat (destruct Hin as [<-|Hin]; [split; reflexivity|]). destruct Hin.
Qed.

(** White space inside the text stays, and so do characters that are not
    white space, whatever their bytes: U+00E9 and the zero width space
    U+200B at the edges are kept. *)
Example strip_unicode :
  strip spaced_note = "tea"
  /\ strip (utf8 [227; 128; 128; 10]%nat ++ "a b" ++ utf8 [9; 226; 128; 168; 32]%nat) = "a b"
  /\ strip (utf8 [195; 169; 32]%nat) = utf8 [195; 169]%nat
  /\ strip (utf8 [32; 226; 128; 139]%nat) = utf8 [226; 128; 139]%nat.
Proof. repeat split; vm_compute; reflexivity. Qed.

(** A start with the note U+00A0 tea U+2003 in the entry stores tea. *)
Example toggle_strips_note :
  sessions (self (snd (@toggle (FixedZone EST) spaced_note_sys)))
  = [mk_Session (JString "2024-01-02T12:00:00-05:00") JNull (JString "tea")].
Proof. vm_compute. reflexivity. Qed.
